(** * DERA WFS downloader: a shallow embedding of the two download scripts

    [scripts/dera-download/download_dera.py] (paginated fetch, no retry) and
    [scripts/dera-download/download_dera_actions.py] (single-page fetch with
    retry, merge, write, summary).

    Python values are JSON trees; dictionaries are association lists in
    insertion order; every call that touches the network, the clock or the
    disk threads an explicit [world].  Exceptions are values of [exn] and a
    computation returns [Ok] or [Raise].  Console output ([print], [log])
    and the creation of directories change nothing the properties below
    speak of and are left out. *)

From Stdlib Require Import List String Ascii ZArith QArith Lia Bool.
From Stdlib Require Import DecimalString DecimalPos DecimalZ.
Import ListNotations.
Local Open Scope string_scope.
Local Open Scope Z_scope.

Set Implicit Arguments.
Set Warnings "-register-all".

(* ================================================================= *)
(** ** Python values *)

(** What [response.json()] can return.  A Python [dict] keeps insertion
    order and has one entry per key. *)
Inductive json : Type :=
| JNull
| JBool (b : bool)
| JNum (q : Q)
| JStr (s : string)
| JArr (items : list json)
| JObj (entries : list (string * json)).

Definition dict (V : Type) : Type := list (string * V).

Section Dict.
Variable V : Type.

(** [d.get(k)] / [k in d] *)
Fixpoint dict_get (d : dict V) (k : string) : option V :=
  match d with
  | [] => None
  | (k', v) :: rest => if String.eqb k' k then Some v else dict_get rest k
  end.

Definition dict_mem (d : dict V) (k : string) : bool :=
  match dict_get d k with Some _ => true | None => false end.

(** [d[k] = v]: replaces the value of an existing key where it stands,
    appends a new key at the end. *)
Fixpoint dict_set (d : dict V) (k : string) (v : V) : dict V :=
  match d with
  | [] => [(k, v)]
  | (k', v') :: rest =>
      if String.eqb k' k then (k', v) :: rest
      else (k', v') :: dict_set rest k v
  end.

Definition dict_keys (d : dict V) : list string := map fst d.
Definition dict_values (d : dict V) : list V := map snd d.
End Dict.

(** The exceptions the two scripts can meet.  [RequestsJSONDecodeError] is
    [requests.exceptions.JSONDecodeError], which [Response.json()] raises on
    a body that is not JSON; it derives from both [RequestException] and
    [json.JSONDecodeError]. *)
Inductive exn : Type :=
| Timeout
| ConnectionError
| HTTPError (status_code : Z)
| RequestsJSONDecodeError
| AttributeError
| TypeError.

Definition isinstance_Timeout (e : exn) : bool :=
  match e with Timeout => true | _ => false end.

Definition isinstance_HTTPError (e : exn) : bool :=
  match e with HTTPError _ => true | _ => false end.

Definition isinstance_RequestException (e : exn) : bool :=
  match e with
  | Timeout | ConnectionError | HTTPError _ | RequestsJSONDecodeError => true
  | AttributeError | TypeError => false
  end.

Definition isinstance_JSONDecodeError (e : exn) : bool :=
  match e with RequestsJSONDecodeError => true | _ => false end.

Inductive result (A : Type) : Type :=
| Ok (a : A)
| Raise (e : exn).
Arguments Raise {A} e.

(** [x.get(key, default)]: only a dict has the method. *)
Definition py_get (x : json) (key : string) (default : json) : result json :=
  match x with
  | JObj d => Ok (match dict_get d key with Some v => v | None => default end)
  | _ => Raise AttributeError
  end.

Definition chars (s : string) : list json :=
  map (fun c => JStr (String c EmptyString)) (list_ascii_of_string s).

(** Iteration ([for f in x], [list.extend(x)]): a list gives its items, a
    dict its keys, a string its characters; the rest is not iterable. *)
Definition py_iter (x : json) : result (list json) :=
  match x with
  | JArr items => Ok items
  | JObj d => Ok (map JStr (dict_keys d))
  | JStr s => Ok (chars s)
  | JNull | JBool _ | JNum _ => Raise TypeError
  end.

(** [len(x)] *)
Definition py_len (x : json) : result Z :=
  match py_iter x with
  | Ok items => Ok (Z.of_nat (List.length items))
  | Raise e => Raise e
  end.

(** Truth value ([if not x]). *)
Definition py_truthy (x : json) : bool :=
  match x with
  | JNull => false
  | JBool b => b
  | JNum q => negb (Qeq_bool q 0%Q)
  | JStr s => negb (String.eqb s "")
  | JArr items => match items with [] => false | _ => true end
  | JObj d => match d with [] => false | _ => true end
  end.

(** [str(n)] for an integer. *)
Definition str (n : Z) : string := NilZero.string_of_int (Z.to_int n).

(** [sum(xs)] over integers. *)
Definition py_sum (xs : list Z) : Z := fold_left Z.add xs 0.

(** [range(a, b)] *)
Definition range (a b : Z) : list Z :=
  map (fun i => a + Z.of_nat i) (seq 0 (Z.to_nat (b - a))).

(* ================================================================= *)
(** ** The world: network, clock and disk *)

(** A GET request.  The scripts build [f"{url}?{urlencode(params)}"]; the
    embedding keeps the base URL and the parameter dict apart. *)
Record request : Type := mkRequest {
  req_url : string;
  req_params : dict string;
  req_timeout : Z
}.

(** What the remote end does with one GET: no answer in time, a broken
    connection, or a response with a status code and a body that parses as
    JSON ([Some]) or does not ([None]). *)
Inductive outcome : Type :=
| NoAnswer
| Broken
| Response (status_code : Z) (body : option json).

(** [f"{base}?{urlencode(params)}"], kept apart. *)
Definition wfs_url : Type := (string * dict string)%type.

Inductive event : Type :=
| Get (r : request)
| Sleep (seconds : Q)
| WriteFile (path : string) (document : json).

(** [calls] counts the GETs issued so far, [trace] lists the effects in the
    order they happened (oldest first), [files] is the disk. *)
Record world : Type := mkWorld {
  calls : nat;
  trace : list event;
  files : dict json
}.

Definition empty_world : world := mkWorld 0 [] [].

Definition M (A : Type) : Type := world -> result A * world.

Definition ret {A} (a : A) : M A := fun w => (Ok a, w).
Definition raise {A} (e : exn) : M A := fun w => (Raise e, w).
Definition bind {A B} (m : M A) (k : A -> M B) : M B :=
  fun w => match m w with
           | (Ok a, w') => k a w'
           | (Raise e, w') => (Raise e, w')
           end.
Definition lift {A} (r : result A) : M A := fun w => (r, w).

Notation "x <- m ;; k" := (bind m (fun x => k))
  (at level 61, m at next level, right associativity).
Notation "m ;;; k" := (bind m (fun _ => k))
  (at level 61, right associativity).

Definition emit (e : event) : M unit :=
  fun w => (Ok tt, mkWorld (calls w) (trace w ++ [e]) (files w)).

(** [time.sleep(seconds)] *)
Definition time_sleep (seconds : Q) : M unit := emit (Sleep seconds).

(** The GETs of a trace, in order. *)
Fixpoint gets (t : list event) : list request :=
  match t with
  | [] => []
  | Get r :: rest => r :: gets rest
  | _ :: rest => gets rest
  end.


Fixpoint writes (t : list event) : list (string * json) :=
  match t with
  | [] => []
  | WriteFile p d :: rest => (p, d) :: writes rest
  | _ :: rest => writes rest
  end.

(** A response object as [requests] hands it over. *)
Record response : Type := mkResponse {
  status_code : Z;
  body : option json
}.

(** The request [requests.get(u, timeout=t)] puts on the wire. *)
Definition request_of (u : wfs_url) (timeout : Z) : request :=
  mkRequest (fst u) (snd u) timeout.

Section Transport.
(** The remote end: what the [n]-th GET of the run (counted from 0) gets
    back, given the request it carries. *)
Variable server : nat -> request -> outcome.

(** [requests.get(url, timeout=t)] *)
Definition requests_get (u : wfs_url) (timeout : Z) : M response :=
  fun w =>
    let r := request_of u timeout in
    let w' := mkWorld (S (calls w)) (trace w ++ [Get r]) (files w) in
    match server (calls w) r with
    | NoAnswer => (Raise Timeout, w')
    | Broken => (Raise ConnectionError, w')
    | Response s b => (Ok (mkResponse s b), w')
    end.
End Transport.

(** [response.raise_for_status()] *)
Definition raise_for_status (r : response) : M unit :=
  if (400 <=? status_code r) && (status_code r <? 600)
  then raise (HTTPError (status_code r))
  else ret tt.

(** [response.json()] *)
Definition response_json (r : response) : M json :=
  match body r with
  | Some data => ret data
  | None => raise RequestsJSONDecodeError
  end.

(** [open(path, "w")] followed by [json.dump(document, f)]: the file holds
    the document, whatever it held before. *)
Definition write_json (path : string) (document : json) : M unit :=
  fun w => (Ok tt, mkWorld (calls w)
                           (trace w ++ [WriteFile path document])
                           (dict_set (files w) path document)).

(** A function applied to every item, stopping at the first that raises. *)
Fixpoint map_result {A B} (f : A -> result B) (xs : list A) : result (list B) :=
  match xs with
  | [] => Ok []
  | x :: rest =>
      match f x with
      | Raise e => Raise e
      | Ok y => match map_result f rest with
                | Raise e => Raise e
                | Ok ys => Ok (y :: ys)
                end
      end
  end.

(* ================================================================= *)
(** ** download_dera_actions.py *)

Module DownloadDeraActions.

Definition OUTPUT_DIR : string := "public/data/dera".
Definition METADATA_FILE : string := "public/data/metadata.json".

Definition MAX_RETRIES : Z := 3.
Definition RETRY_DELAY : Q := 5%Q.
Definition REQUEST_TIMEOUT : Z := 60.

(** One layer descriptor: [(url, layer, desc)]. *)
Definition layer_descriptor : Type := (string * string * string)%type.

Definition g12 : string :=
  "https://www.ideandalucia.es/services/DERA_g12_servicios/wfs".
Definition g10 : string :=
  "https://www.ideandalucia.es/services/DERA_g10_infra_energetica/wfs".

Definition WFS_LAYERS : dict (list layer_descriptor) :=
  [ ("health",
      [ (g12, "DERA_g12_servicios:g12_01_CentroSalud", "CAP");
        (g12, "DERA_g12_servicios:g12_02_Hospital_CAE", "Hospitales") ]);
    ("security",
      [ (g12, "DERA_g12_servicios:g12_26_Policia", "Policía");
        (g12, "DERA_g12_servicios:g12_29_ParqueBomberos", "Bomberos");
        (g12, "DERA_g12_servicios:g12_34_GuardiaCivil", "Guardia Civil") ]);
    ("education",
      [ (g12, "DERA_g12_servicios:g12_05_CentroEducativo",
         "Centros Educativos") ]);
    ("municipal",
      [ (g12, "DERA_g12_servicios:g12_32_CentrosJuntaAndalucia",
         "Centros Junta");
        (g12, "DERA_g12_servicios:g12_11_Ayuntamiento", "Ayuntamientos") ]);
    ("emergency",
      [ (g12, "DERA_g12_servicios:g12_35_GestionEmergencias",
         "Centros Emergencias") ]);
    ("energy",
      [ (g10, "DERA_g10_infra_energetica:g10_02_ParqueEolico",
         "Parques Eólicos") ]) ].

(** The empty collection [fetch_wfs] falls back to. *)
Definition empty_collection : json :=
  JObj [("type", JStr "FeatureCollection"); ("features", JArr [])].

(** [full_url] of [fetch_wfs]. *)
Definition full_url (url layer : string) : wfs_url :=
  (url,
   [ ("SERVICE", "WFS");
     ("VERSION", "2.0.0");
     ("REQUEST", "GetFeature");
     ("TYPENAME", layer);
     ("OUTPUTFORMAT", "application/json");
     ("SRSNAME", "EPSG:25830") ]).

(** The [except] clauses of [fetch_wfs], in the order they are tried. *)
Definition fetch_wfs_catches (e : exn) : bool :=
  isinstance_Timeout e
  || isinstance_HTTPError e
  || isinstance_RequestException e
  || isinstance_JSONDecodeError e.

(** The provenance tag: the body of [for f in features].  Item assignment
    with a string key is a [TypeError] on anything but a dict, so a feature
    that is not a dict, or whose ["properties"] is not one, raises. *)
Definition tag_feature (desc : string) (f : json) : result json :=
  match f with
  | JObj d =>
      let d1 := if negb (dict_mem d "properties")
                then dict_set d "properties" (JObj [])
                else d in
      match dict_get d1 "properties" with
      | Some (JObj p) =>
          Ok (JObj (dict_set d1 "properties"
                      (JObj (dict_set p "_source" (JStr desc)))))
      | _ => Raise TypeError
      end
  | _ => Raise TypeError
  end.

Definition crs_annotation : json :=
  JObj [("type", JStr "name");
        ("properties", JObj [("name", JStr "EPSG:25830")])].

Definition stats_json (stats : dict Z) : json :=
  JObj (map (fun kv => (fst kv, JNum (inject_Z (snd kv)))) stats).

Section Run.
Variable server : nat -> request -> outcome.
(** [datetime.now().isoformat()], read off the world. *)
Variable clock : world -> string.

(** The [try] block of one attempt. *)
Definition fetch_wfs_try (u : wfs_url) : M json :=
  response <- requests_get server u REQUEST_TIMEOUT ;;
  raise_for_status response ;;;
  data <- response_json response ;;
  features <- lift (py_get data "features" (JArr [])) ;;
  count <- lift (py_len features) ;;
  ret data.

(** [for attempt in range(1, MAX_RETRIES + 1)] *)
Fixpoint fetch_wfs_loop (attempts : list Z) (u : wfs_url) : M json :=
  match attempts with
  | [] => ret empty_collection
  | attempt :: rest =>
      fun w =>
        match fetch_wfs_try u w with
        | (Ok data, w') => (Ok data, w')
        | (Raise e, w') =>
            if fetch_wfs_catches e
            then ((if attempt <? MAX_RETRIES
                   then time_sleep RETRY_DELAY
                   else ret tt) ;;;
                  fetch_wfs_loop rest u) w'
            else (Raise e, w')
        end
  end.

Definition fetch_wfs (url layer : string) : M json :=
  fetch_wfs_loop (range 1 (MAX_RETRIES + 1)) (full_url url layer).

(** [for url, layer, desc in layers], with [all_features] as accumulator.
    The features are tagged where they stand, so what [extend] appends is
    the tagged features. *)
Fixpoint merge_loop (layers : list layer_descriptor)
         (all_features : list json) : M (list json) :=
  match layers with
  | [] => ret all_features
  | (url, layer, desc) :: rest =>
      data <- fetch_wfs url layer ;;
      features <- lift (py_get data "features" (JArr [])) ;;
      items <- lift (py_iter features) ;;
      tagged <- lift (map_result (tag_feature desc) items) ;;
      merge_loop rest (all_features ++ tagged)
  end.

Definition merge_features (layers : list layer_descriptor) : M json :=
  all_features <- merge_loop layers [] ;;
  ret (JObj [("type", JStr "FeatureCollection");
             ("features", JArr all_features);
             ("crs", crs_annotation)]).

Definition save_geojson (data : json) (filename : string) : M Z :=
  write_json (OUTPUT_DIR ++ "/" ++ filename) data ;;;
  features <- lift (py_get data "features" (JArr [])) ;;
  count <- lift (py_len features) ;;
  ret count.

Definition update_metadata (stats : dict Z) : M unit :=
  fun w =>
    write_json METADATA_FILE
      (JObj [("lastUpdate", JStr (clock w));
             ("source", JStr "IDEAndalucía DERA WFS");
             ("crs", JStr "EPSG:25830");
             ("layers", stats_json stats);
             ("totalFeatures",
              JNum (inject_Z (py_sum (dict_values stats))))]) w.

(** [for category, layers in WFS_LAYERS.items()], with [stats] as
    accumulator. *)
Fixpoint process_categories (config : dict (list layer_descriptor))
         (stats : dict Z) : M (dict Z) :=
  match config with
  | [] => ret stats
  | (category, layers) :: rest =>
      data <- merge_features layers ;;
      count <- save_geojson data (category ++ ".geojson") ;;
      process_categories rest (dict_set stats category count)
  end.

(** [for cat, count in stats.items(): total += count] *)
Definition total_of (stats : dict Z) : Z :=
  fold_left (fun total kv => total + snd kv) stats 0.

(** [main], over the configuration it iterates; the result is the
    argument of [sys.exit]. *)
Definition main_on (config : dict (list layer_descriptor)) : M Z :=
  stats <- process_categories config [] ;;
  update_metadata stats ;;;
  let total := total_of stats in
  if 0 <? total then ret 0 else ret 1.

Definition main : M Z := main_on WFS_LAYERS.
End Run.

End DownloadDeraActions.

(* ================================================================= *)
(** ** download_dera.py *)

Module DownloadDera.

(** One entry of a category's ["urls"] list; [source.get("cql_filter")] is
    [None] when the entry has no such key. *)
Record source : Type := mkSource {
  src_url : string;
  src_layer : string;
  src_description : string;
  src_cql_filter : option string
}.

Record category_config : Type := mkConfig {
  cfg_name : string;
  cfg_urls : list source
}.

Definition g12 : string :=
  "https://www.ideandalucia.es/services/DERA_g12_servicios/wfs".
Definition g10 : string :=
  "https://www.ideandalucia.es/services/DERA_g10_infra_energetica/wfs".

Definition WFS_CONFIG : dict category_config :=
  [ ("health", mkConfig "Centros Sanitarios"
      [ mkSource g12 "DERA_g12_servicios:g12_01_CentroSalud"
                 "Centros de Atención Primaria" None;
        mkSource g12 "DERA_g12_servicios:g12_02_Hospital_CAE"
                 "Hospitales y CAE" None ]);
    ("security", mkConfig "Instalaciones de Seguridad"
      [ mkSource g12 "DERA_g12_servicios:g12_26_Policia"
                 "Comisarías de Policía" None;
        mkSource g12 "DERA_g12_servicios:g12_29_ParqueBomberos"
                 "Parques de Bomberos" None;
        mkSource g12 "DERA_g12_servicios:g12_34_GuardiaCivil"
                 "Guardia Civil" None;
        mkSource g12 "DERA_g12_servicios:g12_35_GestionEmergencias"
                 "Gestión Emergencias PTEAnd" None ]);
    ("energy", mkConfig "Infraestructuras Energéticas"
      [ mkSource g10 "DERA_g10_infra_energetica:g10_02_ParqueEolico"
                 "Parques Eólicos" None ]);
    ("education", mkConfig "Centros Educativos"
      [ mkSource g12 "DERA_g12_servicios:g12_05_CentroEducativo"
                 "Centros Educativos" None ]);
    ("municipal", mkConfig "Servicios Municipales"
      [ mkSource g12 "DERA_g12_servicios:g12_11_Ayuntamiento"
                 "Ayuntamientos" None ]) ].

Definition REQUEST_TIMEOUT : Z := 60.
Definition BATCH_SIZE : Z := 1000.

Definition build_wfs_url (base_url layer : string) (cql_filter : option string)
           (start_index count : Z) : wfs_url :=
  let params :=
    [ ("service", "WFS");
      ("version", "2.0.0");
      ("request", "GetFeature");
      ("typeName", layer);
      ("outputFormat", "application/json");
      ("srsName", "EPSG:25830");
      ("startIndex", str start_index);
      ("count", str count) ] in
  let params :=
    match cql_filter with
    | Some f => if String.eqb f "" then params
                else dict_set params "CQL_FILTER" f
    | None => params
    end in
  (base_url, params).

(** How one round of the [while True] loop ends. *)
Inductive round_end : Type :=
| Break (all_features : list json)
| Continue (all_features : list json) (start_index : Z).

(** The options of the command line as typed: [--layer] (default ["all"]),
    [--output] and [--list]. *)
Record args : Type := mkArgs {
  arg_layer : string;
  arg_output : string;
  arg_list : bool
}.

(** Computations that may run out of fuel: [None] stands for a loop that is
    still running when the fuel is spent. *)
Definition MF (A : Type) : Type := world -> option (result A * world).

Definition bindF {A B} (m : MF A) (k : A -> MF B) : MF B :=
  fun w => match m w with
           | None => None
           | Some (Ok a, w') => k a w'
           | Some (Raise e, w') => Some (Raise e, w')
           end.
Definition retF {A} (a : A) : MF A := fun w => Some (Ok a, w).
Definition liftF {A} (m : M A) : MF A := fun w => Some (m w).

Section Run.
Variable server : nat -> request -> outcome.
(** [datetime.utcnow().isoformat()], read off the world. *)
Variable clock : world -> string.

(** The [try] block of one round.  [total_features], read from the first
    page, is only printed and is left out; [all_features] is extended
    after the last call that can raise a [RequestException]. *)
Definition round_try (url layer : string) (cql_filter : option string)
           (all_features : list json) (start_index : Z) : M round_end :=
  let request_url :=
    build_wfs_url url layer cql_filter start_index BATCH_SIZE in
  response <- requests_get server request_url REQUEST_TIMEOUT ;;
  raise_for_status response ;;;
  data <- response_json response ;;
  features <- lift (py_get data "features" (JArr [])) ;;
  if negb (py_truthy features) then ret (Break all_features)
  else
    items <- lift (py_iter features) ;;
    let all_features := (all_features ++ items)%list in
    n <- lift (py_len features) ;;
    if n <? BATCH_SIZE then ret (Break all_features)
    else
      time_sleep (1 # 2) ;;;
      ret (Continue all_features (start_index + BATCH_SIZE)).

(** [while True], with [except RequestException: break]. *)
Fixpoint fetch_loop (fuel : nat) (url layer : string)
         (cql_filter : option string)
         (all_features : list json) (start_index : Z) : MF (list json) :=
  match fuel with
  | O => fun _ => None
  | S fuel' =>
      fun w =>
        match round_try url layer cql_filter all_features start_index w with
        | (Ok (Break fs), w') => Some (Ok fs, w')
        | (Ok (Continue fs i), w') =>
            fetch_loop fuel' url layer cql_filter fs i w'
        | (Raise e, w') =>
            if isinstance_RequestException e
            then Some (Ok all_features, w')
            else Some (Raise e, w')
        end
  end.

Definition fetch_wfs_features (fuel : nat) (url layer description : string)
           (cql_filter : option string) : MF json :=
  bindF (fetch_loop fuel url layer cql_filter [] 0) (fun all_features =>
  fun w =>
    Some (Ok (JObj
      [("type", JStr "FeatureCollection");
       ("features", JArr all_features);
       ("numberMatched",
        JNum (inject_Z (Z.of_nat (List.length all_features))));
       ("source", JStr layer);
       ("downloadedAt", JStr (clock w ++ "Z"))]), w)).

(** [for source in config["urls"]] *)
Fixpoint download_sources (fuel : nat) (sources : list source)
         (all_features : list json) : MF (list json) :=
  match sources with
  | [] => retF all_features
  | s :: rest =>
      bindF (fetch_wfs_features fuel (src_url s) (src_layer s)
               (src_description s) (src_cql_filter s)) (fun result =>
      bindF (liftF (features <- lift (py_get result "features" (JArr [])) ;;
                    lift (py_iter features))) (fun items =>
      download_sources fuel rest (all_features ++ items)))
  end.

Definition download_layer_in (config : dict category_config)
           (fuel : nat) (layer_key output_dir : string) : MF bool :=
  match dict_get config layer_key with
  | None => retF false
  | Some c =>
      bindF (download_sources fuel (cfg_urls c) []) (fun all_features =>
      fun w =>
        let geojson :=
          JObj [("type", JStr "FeatureCollection");
                ("features", JArr all_features);
                ("metadata", JObj
                   [("layer", JStr layer_key);
                    ("name", JStr (cfg_name c));
                    ("featuresCount",
                     JNum (inject_Z (Z.of_nat (List.length all_features))));
                    ("downloadedAt", JStr (clock w ++ "Z"));
                    ("sources",
                     JArr (map (fun s => JStr (src_layer s))
                               (cfg_urls c)))])] in
        liftF (write_json (output_dir ++ "/" ++ layer_key ++ ".geojson")
                          geojson ;;;
               ret true) w)
  end.

Definition download_layer := download_layer_in WFS_CONFIG.

(** [for layer_key in WFS_CONFIG.keys()] *)
Fixpoint download_keys (config : dict category_config) (fuel : nat)
         (keys : list string) (output_dir : string)
         (results : dict bool) : MF (dict bool) :=
  match keys with
  | [] => retF results
  | layer_key :: rest =>
      bindF (download_layer_in config fuel layer_key output_dir)
            (fun success =>
      download_keys config fuel rest output_dir
                    (dict_set results layer_key success))
  end.

Definition download_all_in (config : dict category_config) (fuel : nat)
           (output_dir : string) : MF (dict bool) :=
  download_keys config fuel (dict_keys config) output_dir [].

Definition download_all := download_all_in WFS_CONFIG.

(** The choices of [--layer]: [list(WFS_CONFIG.keys()) + ["all"]]. *)
Definition layer_choices (config : dict category_config) : list string :=
  (dict_keys config ++ ["all"])%list.

(** [main], over the configuration table; the result is the status the
    process ends with: what [sys.exit(main())] receives, or 2 when
    [parser.parse_args()] refuses a [--layer] outside its choices, which
    happens before anything else. *)
Definition main_in (config : dict category_config) (fuel : nat)
           (a : args) : MF Z :=
  if negb (existsb (String.eqb (arg_layer a)) (layer_choices config))
  then retF 2
  else if arg_list a then retF 0
  else
    bindF (if String.eqb (arg_layer a) "all"
           then download_all_in config fuel (arg_output a)
           else bindF (download_layer_in config fuel
                         (arg_layer a) (arg_output a))
                      (fun ok => retF [(arg_layer a, ok)]))
          (fun results =>
    let success :=
      Z.of_nat (List.length (filter (fun v => v) (dict_values results))) in
    let total := Z.of_nat (List.length results) in
    retF (if success =? total then 0 else 1)).

Definition main := main_in WFS_CONFIG.
End Run.

End DownloadDera.

(* ================================================================= *)
(** ** Vocabulary of the properties *)

(** A GET that fails the way the retry policy covers: no answer in time, a
    broken connection, an error status, or a body that is not JSON. *)
Definition transient_failure (o : outcome) : bool :=
  match o with
  | NoAnswer | Broken => true
  | Response s b =>
      ((400 <=? s) && (s <? 600))
      || match b with None => true | Some _ => false end
  end.

(** A feature record as the data model has it: an object whose attribute
    mapping ["properties"] is a mapping when it is there at all. *)
Definition is_record (f : json) : bool :=
  match f with
  | JObj d => match dict_get d "properties" with
              | None | Some (JObj _) => true
              | Some _ => false
              end
  | _ => false
  end.

(** A response document of the protocol: an object whose ["features"], when
    present, is a sequence. *)
Definition is_collection (b : json) : bool :=
  match b with
  | JObj d => match dict_get d "features" with
              | None | Some (JArr _) => true
              | Some _ => false
              end
  | _ => false
  end.

(** The same, with feature records in the sequence. *)
Definition is_feature_collection (b : json) : bool :=
  match b with
  | JObj d => match dict_get d "features" with
              | None => true
              | Some (JArr items) => forallb is_record items
              | Some _ => false
              end
  | _ => false
  end.

(** The records of a response document. *)
Definition records_of (b : json) : list json :=
  match b with
  | JObj d => match dict_get d "features" with
              | Some (JArr items) => items
              | _ => []
              end
  | _ => []
  end.

(** Every body the server sends that parses is of the given shape. *)
Definition serves (shape : json -> bool)
           (server : nat -> request -> outcome) : Prop :=
  forall n r s b, server n r = Response s (Some b) -> shape b = true.

(** The attribute mapping of a record, empty when it has none. *)
Definition attributes (f : json) : dict json :=
  match f with
  | JObj d => match dict_get d "properties" with
              | Some (JObj p) => p
              | _ => []
              end
  | _ => []
  end.

(** A member of a record. *)
Definition member (f : json) (k : string) : option json :=
  match f with
  | JObj d => dict_get d k
  | _ => None
  end.


(** The world after one more effect, and after one more GET. *)
Definition sent (w : world) (e : event) : world :=
  mkWorld (calls w) (trace w ++ [e]) (files w).

Definition asked (w : world) (r : request) : world :=
  mkWorld (S (calls w)) (trace w ++ [Get r]) (files w).

(** The request [fetch_wfs] sends for a layer. *)
Definition wfs_request (url layer : string) : request :=
  request_of (DownloadDeraActions.full_url url layer)
             DownloadDeraActions.REQUEST_TIMEOUT.

(** Only the network and the clock were used between two worlds: the disk
    and the record of what was written are the same. *)
Definition no_writes (w w' : world) : Prop :=
  files w' = files w /\ writes (trace w') = writes (trace w).

(** An endpoint that never answers in time. *)
Definition always_times_out : nat -> request -> outcome :=
  fun _ _ => NoAnswer.

(** A record after the provenance tag; a value that cannot be tagged is
    left as it is. *)
Definition tagged (desc : string) (f : json) : json :=
  match DownloadDeraActions.tag_feature desc f with
  | Ok f' => f'
  | Raise _ => f
  end.

(** What [fetch_wfs] hands back for each descriptor of a category, in order,
    together with the world after the last fetch; the list stops at a fetch
    that raises. *)
Fixpoint layer_documents (server : nat -> request -> outcome)
         (layers : list DownloadDeraActions.layer_descriptor) (w : world)
  : list (string * json) * world :=
  match layers with
  | [] => ([], w)
  | (url, layer, desc) :: rest =>
      match DownloadDeraActions.fetch_wfs server url layer w with
      | (Ok data, w1) =>
          let (docs, w') := layer_documents server rest w1 in
          ((desc, data) :: docs, w')
      | (Raise _, w1) => ([], w1)
      end
  end.

(** The records of those documents, each tagged with its descriptor's
    label. *)
Definition tagged_records (docs : list (string * json)) : list json :=
  flat_map (fun d => map (tagged (fst d)) (records_of (snd d))) docs.

(** The collection [merge_features] builds around a list of features. *)
Definition merged (features : list json) : json :=
  JObj [("type", JStr "FeatureCollection");
        ("features", JArr features);
        ("crs", DownloadDeraActions.crs_annotation)].

(** The two records of the provenance test: one without an attribute
    mapping, one with an attribute. *)
Definition bare_record : json :=
  JObj [("type", JStr "Feature");
        ("geometry", JObj [("type", JStr "Point");
                           ("coordinates",
                            JArr [JNum (inject_Z 500000);
                                  JNum (inject_Z 4200000)])])].

Definition named_record : json :=
  JObj [("type", JStr "Feature");
        ("properties", JObj [("nombre", JStr "Test")])].

Definition two_records : json :=
  JObj [("type", JStr "FeatureCollection");
        ("features", JArr [bare_record; named_record])].

(** A server that answers the first GET with [doc] and none after. *)
Definition answers_once (doc : json) : nat -> request -> outcome :=
  fun n _ => match n with
             | O => Response 200 (Some doc)
             | S _ => NoAnswer
             end.

(** A server that lets the first three GETs time out and answers the
    fourth with [doc]. *)
Definition answers_fourth (doc : json) : nat -> request -> outcome :=
  fun n _ => match n with
             | 3%nat => Response 200 (Some doc)
             | _ => NoAnswer
             end.

(** An upstream document that carries its own reference system. *)
Definition upstream_crs : json :=
  JObj [("type", JStr "name");
        ("properties", JObj [("name", JStr "EPSG:4326")])].

Definition upstream_4326 : json :=
  JObj [("type", JStr "FeatureCollection");
        ("features", JArr [named_record]);
        ("crs", upstream_crs)].

(** A document without a ["features"] key. *)
Definition no_features_key : json :=
  JObj [("type", JStr "FeatureCollection"); ("totalFeatures", JNum 0%Q)].

(** The file a category is written to, and the count [save_geojson]
    returns for a document. *)
Definition category_file (category : string) : string :=
  DownloadDeraActions.OUTPUT_DIR ++ "/" ++ (category ++ ".geojson").

Definition count_of (doc : json) : Z := Z.of_nat (List.length (records_of doc)).

(** The counts of a list of (category, document) pairs, as a mapping. *)
Definition counts (docs : list (string * json)) : dict Z :=
  map (fun d => (fst d, count_of (snd d))) docs.

Definition fixed_clock : world -> string := fun _ => "2025-12-03T06:00:00".

(** [python download_dera.py --output out] *)
Definition all_layers : DownloadDera.args :=
  DownloadDera.mkArgs "all" "out" false.

(* ----------------------------------------------------------------- *)
(** *** Cursor pagination, as the specification words it *)

(** What a round does to the outside: it asks for [count] records from
    [offset] on, or it waits the inter-request delay. *)
Inductive spec_event : Type :=
| Requested (offset count : Z)
| Delayed.

(** The algorithm of the specification over an abstract source of rounds:
    [round k offset count] are the records the [k]-th request brings.  "Each
    round, request exactly page size records starting at the offset; if a
    round returns zero records, pagination is complete; if a round returns
    fewer than page size records, pagination is complete after processing
    that round; otherwise advance the offset by page size, apply a fixed
    inter-request delay, and continue."  The result is the records
    assembled and the log of what was done; [None] when [fuel] rounds did
    not finish it. *)
Fixpoint spec_paginate (round : nat -> Z -> Z -> list json) (page_size : Z)
         (fuel : nat) (k : nat) (offset : Z) (acc : list json)
  : option (list json * list spec_event) :=
  match fuel with
  | O => None
  | S fuel' =>
      let records := round k offset page_size in
      if Z.of_nat (List.length records) =? 0
      then Some (acc, [Requested offset page_size])
      else if Z.of_nat (List.length records) <? page_size
      then Some ((acc ++ records)%list, [Requested offset page_size])
      else
        match spec_paginate round page_size fuel' (S k)
                (offset + page_size) (acc ++ records)%list with
        | None => None
        | Some (all, log) =>
            Some (all, Requested offset page_size :: Delayed :: log)
        end
  end.

(** The request [fetch_wfs_features] sends for [count] records from
    [start_index] on. *)
Definition page_request (url layer : string) (cql_filter : option string)
           (start_index count : Z) : request :=
  request_of (DownloadDera.build_wfs_url url layer cql_filter
                                         start_index count)
             DownloadDera.REQUEST_TIMEOUT.

(** The records the server's [k]-th answer brings for such a request. *)
Definition served_records (server : nat -> request -> outcome)
           (url layer : string) (cql_filter : option string)
           (k : nat) (offset count : Z) : list json :=
  match server k (page_request url layer cql_filter offset count) with
  | Response _ (Some b) => records_of b
  | _ => []
  end.

(** The effect a logged step stands for, and the world after a log. *)
Definition effect_of (url layer : string) (cql_filter : option string)
           (e : spec_event) : event :=
  match e with
  | Requested offset count =>
      Get (page_request url layer cql_filter offset count)
  | Delayed => Sleep (1 # 2)
  end.

Definition after_log (url layer : string) (cql_filter : option string)
           (log : list spec_event) (w : world) : world :=
  mkWorld (calls w + List.length (gets (map (effect_of url layer cql_filter) log)))
          (trace w ++ map (effect_of url layer cql_filter) log)
          (files w).

(** Every GET is answered with a success status and a collection. *)
Definition always_answers (server : nat -> request -> outcome) : Prop :=
  forall n r, exists s b,
    server n r = Response s (Some b)
    /\ (400 <=? s) && (s <? 600) = false
    /\ is_collection b = true.

(** From the [n0]-th GET on, the server answers the requests at offsets
    [i0], [i0 + 1000], ... with the given full pages. *)
Fixpoint full_pages (server : nat -> request -> outcome)
         (url layer : string) (cql_filter : option string)
         (n0 : nat) (i0 : Z) (pages : list (list json)) : Prop :=
  match pages with
  | [] => True
  | p :: rest =>
      (exists s b,
          server n0 (page_request url layer cql_filter i0
                                  DownloadDera.BATCH_SIZE)
          = Response s (Some b)
          /\ (400 <=? s) && (s <? 600) = false
          /\ is_collection b = true
          /\ records_of b = p)
      /\ DownloadDera.BATCH_SIZE <= Z.of_nat (List.length p)
      /\ full_pages server url layer cql_filter (S n0)
                    (i0 + DownloadDera.BATCH_SIZE) rest
  end.

(* ----------------------------------------------------------------- *)
(** *** An endpoint holding finitely many records *)

(** An integer parameter of a request, read back from its decimal
    string. *)
Definition int_param (r : request) (k : string) : Z :=
  match dict_get (req_params r) k with
  | Some s => match NilZero.int_of_string s with
              | Some d => Z.of_int d
              | None => 0
              end
  | None => 0
  end.

(** The endpoint: it holds [records] and answers every request with the
    [count] records that start at [startIndex]. *)
Definition layer_store (records : list json) : nat -> request -> outcome :=
  fun _ r =>
    let start := Z.to_nat (int_param r "startIndex") in
    let count := Z.to_nat (int_param r "count") in
    Response 200
      (Some (JObj [("type", JStr "FeatureCollection");
                   ("features", JArr (firstn count (skipn start records)));
                   ("numberMatched",
                    JNum (inject_Z (Z.of_nat (List.length records))))])).

(** The log of [m] rounds that all but the last went on from. *)
Fixpoint rounds_log (m : nat) (offset page_size : Z) : list spec_event :=
  match m with
  | O => []
  | S O => [Requested offset page_size]
  | S m' =>
      Requested offset page_size :: Delayed
      :: rounds_log m' (offset + page_size) page_size
  end.

(** The document [fetch_wfs_features] returns around the assembled
    features. *)
Definition fetched (all_features : list json) (layer now : string) : json :=
  JObj [("type", JStr "FeatureCollection");
        ("features", JArr all_features);
        ("numberMatched",
         JNum (inject_Z (Z.of_nat (List.length all_features))));
        ("source", JStr layer);
        ("downloadedAt", JStr (now ++ "Z"))].

(** A server that answers the first GET with a full page and lets every
    later one time out. *)
Definition full_page : list json := repeat named_record 1000.


(* ----------------------------------------------------------------- *)
(** *** Further vocabulary *)

Definition is_object (x : json) : bool :=
  match x with JObj _ => true | _ => false end.

(** The effects of [k] attempts of [fetch_wfs]: [k] GETs of the same
    request with the retry delay between two consecutive ones. *)
Fixpoint attempts_trace (k : nat) (r : request) : list event :=
  match k with
  | O => []
  | S O => [Get r]
  | S k' => Get r :: Sleep DownloadDeraActions.RETRY_DELAY
            :: attempts_trace k' r
  end.


(** A server that answers every GET with a full page. *)
Definition always_full : nat -> request -> outcome :=
  fun _ _ =>
    Response 200 (Some (JObj [("type", JStr "FeatureCollection");
                              ("features", JArr full_page)])).

(** A record whose attribute mapping is [null]. *)
Definition null_properties : json :=
  JObj [("type", JStr "Feature"); ("properties", JNull)].

(** The file [download_layer] writes for a key. *)
Definition layer_file (output_dir layer_key : string) : string :=
  output_dir ++ "/" ++ layer_key ++ ".geojson".


(** A server that lets the first two GETs time out and answers the third
    with [doc]. *)
Definition answers_third (doc : json) : nat -> request -> outcome :=
  fun n _ => match n with
             | 2%nat => Response 200 (Some doc)
             | _ => NoAnswer
             end.

(** A document whose only record has a [null] attribute mapping. *)
Definition one_null_record : json :=
  JObj [("type", JStr "FeatureCollection");
        ("features", JArr [named_record; null_properties])].

(** Every GET fails the way the retry policy covers. *)
Definition always_fails (server : nat -> request -> outcome) : Prop :=
  forall n r, transient_failure (server n r) = true.

(** A server that answers every GET with an error status. *)
Definition always_503 : nat -> request -> outcome :=
  fun _ _ => Response 503 None.

(** Every GET is answered with a success status and a page of at least
    [BATCH_SIZE] records. *)
Definition always_full_pages (server : nat -> request -> outcome) : Prop :=
  forall n r, exists s b,
    server n r = Response s (Some b)
    /\ (400 <=? s) && (s <? 600) = false
    /\ is_collection b = true
    /\ DownloadDera.BATCH_SIZE <= Z.of_nat (List.length (records_of b)).

(** A server that answers the first GET with a full page and the second
    with a JSON array. *)
Definition page_then_array : nat -> request -> outcome :=
  fun n _ =>
    match n with
    | O => Response 200 (Some (JObj [("type", JStr "FeatureCollection");
                                     ("features", JArr full_page)]))
    | S _ => Response 200 (Some (JArr []))
    end.

(** The sum of a list of counts. *)
Fixpoint sum_counts (xs : list Z) : Z :=
  match xs with
  | [] => 0
  | x :: rest => x + sum_counts rest
  end.

(** The number of records of a document, as a JSON number. *)
Definition count_json (doc : json) : json :=
  JNum (inject_Z (Z.of_nat (List.length (records_of doc)))).

(** Three categories with 5, 0 and 12 records. *)
Definition example_counts : dict Z :=
  [("health", 5); ("security", 0); ("education", 12)].

(** The status a Python process ends with: the argument of [sys.exit], or
    1 when an exception reaches the top level. *)
Definition exit_status (r : result Z) : Z :=
  match r with Ok code => code | Raise _ => 1 end.

(** The records [fetch_wfs_features] assembles for each source of a
    category of download_dera.py, one source after the other, and the world
    after the last fetch; [None] when a fetch does not return a document. *)
Fixpoint source_records (server : nat -> request -> outcome)
         (clock : world -> string) (fuel : nat)
         (sources : list DownloadDera.source) (w : world)
  : option (list json * world) :=
  match sources with
  | [] => Some ([], w)
  | s :: rest =>
      match DownloadDera.fetch_wfs_features server clock fuel
              (DownloadDera.src_url s) (DownloadDera.src_layer s)
              (DownloadDera.src_description s)
              (DownloadDera.src_cql_filter s) w with
      | Some (Ok doc, w1) =>
          match source_records server clock fuel rest w1 with
          | Some (fs, w') => Some ((records_of doc ++ fs)%list, w')
          | None => None
          end
      | _ => None
      end
  end.


(* ================================================================= *)
(** ** The text of a request URL *)

(** Both scripts hand [requests.get] the text
    [f"{base}?{urlencode(params)}"].  A string stands for its UTF-8 bytes,
    which is what [urllib.parse] escapes. *)

(** [urllib.parse._ALWAYS_SAFE]: letters, digits and [_.-~]. *)
Definition always_safe (c : ascii) : bool :=
  let n := N_of_ascii c in
  ((65 <=? n) && (n <=? 90)
   || (97 <=? n) && (n <=? 122)
   || (48 <=? n) && (n <=? 57))%N
  || existsb (Ascii.eqb c) ["_"; "."; "-"; "~"]%char.

(** One digit of ['%{:02X}']. *)
Definition hex_digit (n : N) : ascii :=
  nth (N.to_nat n)
      ["0"; "1"; "2"; "3"; "4"; "5"; "6"; "7"; "8"; "9";
       "A"; "B"; "C"; "D"; "E"; "F"]%char "0"%char.

(** What [quote_plus] (with its default [safe=""]) makes of one byte: kept
    when always safe, [+] for a space, [%XX] otherwise. *)
Definition quote_byte (c : ascii) : string :=
  if always_safe c then String c ""
  else if Ascii.eqb c " " then "+"
  else String "%" (String (hex_digit (N_of_ascii c / 16))
                  (String (hex_digit (N_of_ascii c mod 16)) "")).

(** [urllib.parse.quote_plus(s)] *)
Fixpoint quote_plus (s : string) : string :=
  match s with
  | "" => ""
  | String c rest => quote_byte c ++ quote_plus rest
  end.

(** [urllib.parse.urlencode(params)] for a dict of strings. *)
Definition urlencode (params : dict string) : string :=
  String.concat "&"
    (map (fun kv => quote_plus (fst kv) ++ "=" ++ quote_plus (snd kv))
         params).

(** [f"{base}?{urlencode(params)}"] *)
Definition url_text (u : wfs_url) : string :=
  fst u ++ "?" ++ urlencode (snd u).

(** The reading end, as a server decodes a query string
    (application/x-www-form-urlencoded): cut at every [&], cut each piece at
    its first [=], and undo the escapes on both sides. *)
Definition hex_value (c : ascii) : option N :=
  let n := N_of_ascii c in
  if ((48 <=? n) && (n <=? 57))%N then Some (n - 48)%N
  else if ((65 <=? n) && (n <=? 70))%N then Some (n - 55)%N
  else if ((97 <=? n) && (n <=? 102))%N then Some (n - 87)%N
  else None.

Fixpoint unquote_plus (s : string) : string :=
  match s with
  | "" => ""
  | String c rest =>
      if Ascii.eqb c "+" then String " " (unquote_plus rest)
      else if Ascii.eqb c "%" then
        match rest with
        | String h (String l rest') =>
            match hex_value h, hex_value l with
            | Some a, Some b =>
                String (ascii_of_N (16 * a + b)) (unquote_plus rest')
            | _, _ => String c (unquote_plus rest)
            end
        | _ => String c (unquote_plus rest)
        end
      else String c (unquote_plus rest)
  end.

(** The text before the first [sep] and the text after it. *)
Fixpoint cut (sep : ascii) (s : string) : string * string :=
  match s with
  | "" => ("", "")
  | String c rest =>
      if Ascii.eqb c sep then ("", rest)
      else (String c (fst (cut sep rest)), snd (cut sep rest))
  end.

(** The first piece and the further pieces of [s] cut at every [sep]. *)
Fixpoint split_on (sep : ascii) (s : string) : string * list string :=
  match s with
  | "" => ("", [])
  | String c rest =>
      if Ascii.eqb c sep
      then ("", fst (split_on sep rest) :: snd (split_on sep rest))
      else (String c (fst (split_on sep rest)), snd (split_on sep rest))
  end.

Definition decode_pair (piece : string) : string * string :=
  (unquote_plus (fst (cut "=" piece)), unquote_plus (snd (cut "=" piece))).

Definition decode_query (q : string) : dict string :=
  if String.eqb q "" then []
  else map decode_pair (fst (split_on "&" q) :: snd (split_on "&" q)).


(* ################################################################# *)
(** * Properties *)

(* ================================================================= *)
(** ** The single-page fetch with retry *)

Section FetchWfs.
Import DownloadDeraActions.
Variable server : nat -> request -> outcome.

(** An attempt whose GET fails transiently raises something the [except]
    clauses catch, after exactly one GET. *)
Lemma fetch_wfs_try_fails url layer w :
  transient_failure (server (calls w) (wfs_request url layer)) = true ->
  exists e, fetch_wfs_catches e = true /\
    fetch_wfs_try server (full_url url layer) w
    = (Raise e, asked w (wfs_request url layer)).
Proof.
  intros H. unfold fetch_wfs_try, bind, requests_get.
  fold (wfs_request url layer). cbv zeta. fold (asked w (wfs_request url layer)).
  destruct (server (calls w) (wfs_request url layer)) as [| |s b] eqn:E.
  - exists Timeout. split; reflexivity.
  - exists ConnectionError. split; reflexivity.
  - cbn in H. unfold raise_for_status. cbn [status_code].
    destruct ((400 <=? s) && (s <? 600)) eqn:Es.
    + exists (HTTPError s). split; reflexivity.
    + cbn in H. destruct b as [b|]; [discriminate|].
      exists RequestsJSONDecodeError. split; reflexivity.
Qed.

(** An attempt whose GET brings a collection returns that document. *)
Lemma fetch_wfs_try_succeeds url layer w s b :
  server (calls w) (wfs_request url layer) = Response s (Some b) ->
  (400 <=? s) && (s <? 600) = false ->
  is_collection b = true ->
  fetch_wfs_try server (full_url url layer) w
  = (Ok b, asked w (wfs_request url layer)).
Proof.
  intros E Es Hb. unfold fetch_wfs_try, bind, requests_get.
  fold (wfs_request url layer). cbv zeta.
  fold (asked w (wfs_request url layer)). rewrite E.
  unfold raise_for_status. cbn [status_code]. rewrite Es. cbn.
  destruct b as [| | | |?|d]; try discriminate. cbn in *.
  destruct (dict_get d "features") as [[| | | |items|]|]; try discriminate;
    reflexivity.
Qed.

Lemma range_attempts : range 1 (MAX_RETRIES + 1) = [1; 2; 3].
Proof. reflexivity. Qed.

End FetchWfs.

Section FetchWfsTotal.
Import DownloadDeraActions.
Variable server : nat -> request -> outcome.

Lemma writes_app t1 t2 : writes (t1 ++ t2) = (writes t1 ++ writes t2)%list.
Proof.
  induction t1 as [|e t1 IH]; [reflexivity|].
  destruct e; cbn; rewrite ?IH; reflexivity.
Qed.


Lemma no_writes_refl w : no_writes w w.
Proof. split; reflexivity. Qed.

Lemma no_writes_trans w1 w2 w3 :
  no_writes w1 w2 -> no_writes w2 w3 -> no_writes w1 w3.
Proof. intros [A B] [C D]. split; congruence. Qed.

Lemma no_writes_asked w r : no_writes w (asked w r).
Proof.
  split; [reflexivity|]. cbn. rewrite writes_app. cbn. apply app_nil_r.
Qed.

Lemma no_writes_sent_sleep w q : no_writes w (sent w (Sleep q)).
Proof.
  split; [reflexivity|]. cbn. rewrite writes_app. cbn. apply app_nil_r.
Qed.

(** One attempt against a server that sends collections: the document, or
    an exception the [except] clauses catch. *)
Lemma fetch_wfs_try_cases u w :
  serves is_collection server ->
  let r := request_of u REQUEST_TIMEOUT in
  (exists s b, server (calls w) r = Response s (Some b) /\
               fetch_wfs_try server u w = (Ok b, asked w r))
  \/ (exists e, fetch_wfs_catches e = true /\
                fetch_wfs_try server u w = (Raise e, asked w r)).
Proof.
  intros Hs r. unfold fetch_wfs_try, bind, requests_get. cbv zeta.
  fold r. fold (asked w r).
  destruct (server (calls w) r) as [| |s b] eqn:E.
  - right. exists Timeout. split; reflexivity.
  - right. exists ConnectionError. split; reflexivity.
  - unfold raise_for_status. cbn [status_code].
    destruct ((400 <=? s) && (s <? 600)) eqn:Es.
    + right. exists (HTTPError s). split; reflexivity.
    + destruct b as [b|].
      * left. exists s, b. split; [reflexivity|].
        specialize (Hs _ _ _ _ E). cbn.
        destruct b as [| | | |?|d]; try discriminate. cbn in *.
        destruct (dict_get d "features") as [[| | | |items|]|];
          try discriminate; reflexivity.
      * right. exists RequestsJSONDecodeError. split; reflexivity.
Qed.

Lemma fetch_wfs_loop_returns attempts u w :
  serves is_collection server ->
  exists data w',
    fetch_wfs_loop server attempts u w = (Ok data, w') /\
    (data = empty_collection \/
     exists n r s, server n r = Response s (Some data)) /\
    no_writes w w'.
Proof.
  intros Hs. revert w. induction attempts as [|a rest IH]; intros w.
  - exists empty_collection, w. repeat split; auto.
  - cbn [fetch_wfs_loop].
    destruct (fetch_wfs_try_cases u w Hs) as [(s & b & E & ->)|(e & C & ->)].
    + exists b, (asked w (request_of u REQUEST_TIMEOUT)).
      split; [reflexivity|]. split; [right; eauto|]. apply no_writes_asked.
    + rewrite C. unfold bind at 1.
      destruct (a <? MAX_RETRIES).
      * cbn [time_sleep emit].
        match goal with |- context [fetch_wfs_loop _ _ _ ?w1] =>
          destruct (IH w1) as (data & w' & -> & Hd & Hw) end.
        exists data, w'. split; [reflexivity|]. split; [exact Hd|].
        eapply no_writes_trans; [apply no_writes_asked|].
        eapply no_writes_trans; [apply no_writes_sent_sleep|exact Hw].
      * cbn [ret].
        match goal with |- context [fetch_wfs_loop _ _ _ ?w1] =>
          destruct (IH w1) as (data & w' & -> & Hd & Hw) end.
        exists data, w'. split; [reflexivity|]. split; [exact Hd|].
        eapply no_writes_trans; [apply no_writes_asked|exact Hw].
Qed.

(** [fetch_wfs] always returns a document against such a server. *)
Lemma fetch_wfs_returns url layer w :
  serves is_collection server ->
  exists data w',
    fetch_wfs server url layer w = (Ok data, w') /\
    (data = empty_collection \/
     exists n r s, server n r = Response s (Some data)) /\
    no_writes w w'.
Proof. intros Hs. apply fetch_wfs_loop_returns, Hs. Qed.

End FetchWfsTotal.


(* ================================================================= *)
(** ** Dictionaries *)

Section DictFacts.
Variable V : Type.
Implicit Types (d : dict V) (k : string) (v : V).

Lemma dict_get_set_same d k v : dict_get (dict_set d k v) k = Some v.
Proof.
  induction d as [|[k' v'] d IH]; cbn.
  - now rewrite String.eqb_refl.
  - destruct (String.eqb k' k) eqn:E; cbn; rewrite E; auto.
Qed.

Lemma dict_get_set_other d k k' v :
  k' <> k -> dict_get (dict_set d k v) k' = dict_get d k'.
Proof.
  intros N. induction d as [|[k0 v0] d IH]; cbn.
  - destruct (String.eqb_spec k k'); congruence.
  - destruct (String.eqb_spec k0 k) as [->|]; cbn.
    + destruct (String.eqb_spec k k'); congruence.
    + now rewrite IH.
Qed.

Lemma dict_get_none_not_in d k :
  dict_get d k = None -> ~ In k (dict_keys d).
Proof.
  induction d as [|[k' v'] d IH]; cbn; [tauto|].
  destruct (String.eqb_spec k' k); [discriminate|].
  intros H [?|?]; [congruence|]. now apply IH.
Qed.

Lemma dict_get_not_in d k :
  ~ In k (dict_keys d) -> dict_get d k = None.
Proof.
  induction d as [|[k' v'] d IH]; cbn; [reflexivity|].
  intros N. destruct (String.eqb_spec k' k); [tauto|]. apply IH. tauto.
Qed.

(** Assigning to a new key appends the entry. *)
Lemma dict_set_fresh d k v :
  ~ In k (dict_keys d) -> dict_set d k v = (d ++ [(k, v)])%list.
Proof.
  induction d as [|[k' v'] d IH]; cbn; [reflexivity|].
  intros N. destruct (String.eqb_spec k' k); [tauto|].
  rewrite IH; tauto.
Qed.

Lemma dict_set_set d k v v' :
  dict_set (dict_set d k v) k v' = dict_set d k v'.
Proof.
  induction d as [|[k0 v0] d IH]; cbn.
  - now rewrite String.eqb_refl.
  - destruct (String.eqb k0 k) eqn:E; cbn; rewrite E; [reflexivity|].
    now rewrite IH.
Qed.
End DictFacts.

(* ================================================================= *)
(** ** The provenance tag *)

Section Tagging.
Import DownloadDeraActions.

Lemma tag_feature_record desc f :
  is_record f = true -> tag_feature desc f = Ok (tagged desc f).
Proof.
  unfold tagged. destruct (tag_feature desc f) eqn:E; [reflexivity|].
  intros R. exfalso. destruct f as [| | | |?|d]; try discriminate.
  cbn in R, E. unfold dict_mem in E.
  destruct (dict_get d "properties") as [p|] eqn:P; cbn in E.
  - rewrite P in E. destruct p; discriminate.
  - rewrite dict_get_set_same in E. discriminate.
Qed.

(** The shape of a tagged record: the attribute mapping with ["_source"]
    assigned, stored under ["properties"]. *)
Lemma tagged_record desc d :
  is_record (JObj d) = true ->
  tagged desc (JObj d)
  = JObj (dict_set d "properties"
            (JObj (dict_set (attributes (JObj d)) "_source" (JStr desc)))).
Proof.
  intros R. unfold tagged. cbn in *. unfold dict_mem.
  destruct (dict_get d "properties") as [p|] eqn:P; cbn.
  - rewrite P. destruct p; try discriminate. reflexivity.
  - rewrite dict_get_set_same. cbn. now rewrite dict_set_set.
Qed.


Lemma tagged_attributes desc f :
  is_record f = true ->
  attributes (tagged desc f)
  = dict_set (attributes f) "_source" (JStr desc).
Proof.
  intros R. destruct f as [| | | |?|d]; try discriminate.
  rewrite tagged_record by exact R.
  cbn [attributes]. now rewrite dict_get_set_same.
Qed.

Lemma tagged_member desc f k :
  is_record f = true -> k <> "properties" ->
  member (tagged desc f) k = member f k.
Proof.
  intros R N. destruct f as [| | | |?|d]; try discriminate.
  rewrite tagged_record by exact R. cbn [member].
  apply dict_get_set_other, N.
Qed.

Lemma map_tag_records desc items :
  forallb is_record items = true ->
  map_result (tag_feature desc) items = Ok (map (tagged desc) items).
Proof.
  induction items as [|f items IH]; cbn; [reflexivity|].
  intros H. apply andb_prop in H as [Hf Hi].
  rewrite tag_feature_record, IH by assumption. reflexivity.
Qed.
End Tagging.

(* ================================================================= *)
(** ** The merger *)

Section Collections.

Lemma feature_collection_is_collection b :
  is_feature_collection b = true -> is_collection b = true.
Proof.
  destruct b as [| | | |?|d]; try discriminate. cbn.
  destruct (dict_get d "features") as [[| | | |items|]|]; auto.
Qed.

Lemma collection_features b :
  is_collection b = true ->
  py_get b "features" (JArr []) = Ok (JArr (records_of b)).
Proof.
  destruct b as [| | | |?|d]; try discriminate. cbn.
  destruct (dict_get d "features") as [[| | | |items|]|];
    try discriminate; reflexivity.
Qed.

Lemma feature_collection_records b :
  is_feature_collection b = true -> forallb is_record (records_of b) = true.
Proof.
  destruct b as [| | | |?|d]; try discriminate. cbn.
  destruct (dict_get d "features") as [[| | | |items|]|];
    try discriminate; auto.
Qed.

Lemma serves_weaken (P Q : json -> bool) server :
  (forall b, P b = true -> Q b = true) -> serves P server -> serves Q server.
Proof. intros PQ H n r s b E. apply PQ. exact (H n r s b E). Qed.
End Collections.

Section Merger.
Import DownloadDeraActions.
Variable server : nat -> request -> outcome.
Hypothesis polite : serves is_feature_collection server.

Lemma fetch_wfs_feature_collection url layer w :
  exists data w',
    fetch_wfs server url layer w = (Ok data, w') /\
    is_feature_collection data = true /\
    no_writes w w'.
Proof.
  assert (Hc : serves is_collection server)
    by (eapply serves_weaken;
        [apply feature_collection_is_collection|exact polite]).
  destruct (fetch_wfs_returns url layer w Hc) as (data & w' & E & D & N).
  exists data, w'. split; [exact E|]. split; [|exact N].
  destruct D as [->|(n & r & s & D)]; [reflexivity|].
  eapply polite, D.
Qed.

(** The loop of [merge_features] appends, layer after layer, the records of
    the document fetched for the layer, each tagged with the layer's
    label. *)
Lemma merge_loop_documents layers : forall acc w,
  merge_loop server layers acc w
  = (Ok (acc ++ tagged_records (fst (layer_documents server layers w)))%list,
     snd (layer_documents server layers w))
  /\ map fst (fst (layer_documents server layers w))
     = map (fun d => snd d) layers
  /\ Forall (fun d => is_feature_collection (snd d) = true)
            (fst (layer_documents server layers w))
  /\ no_writes w (snd (layer_documents server layers w)).
Proof.
  induction layers as [|[[url layer] desc] rest IH]; intros acc w.
  - cbn. rewrite app_nil_r.
    split; [reflexivity|]. split; [reflexivity|].
    split; [constructor|apply no_writes_refl].
  - cbn [merge_loop layer_documents].
    destruct (fetch_wfs_feature_collection url layer w)
      as (data & w1 & E & D & N).
    unfold bind at 1. rewrite E.
    unfold bind at 1, lift at 1.
    rewrite (collection_features _ (feature_collection_is_collection _ D)).
    unfold bind at 1, lift at 1. cbn [py_iter].
    unfold bind at 1, lift at 1.
    rewrite map_tag_records by (apply feature_collection_records, D).
    destruct (IH (acc ++ map (tagged desc) (records_of data))%list w1)
      as (-> & K & F & N').
    destruct (layer_documents server rest w1) as [docs w'] eqn:L.
    cbn [fst snd] in *. unfold tagged_records. cbn [flat_map fst snd].
    rewrite <- app_assoc. split; [reflexivity|].
    split; [cbn; now rewrite K|].
    split; [constructor; assumption|].
    eapply no_writes_trans; eassumption.
Qed.

Lemma merge_features_documents layers w :
  merge_features server layers w
  = (Ok (merged (tagged_records (fst (layer_documents server layers w)))),
     snd (layer_documents server layers w)).
Proof.
  unfold merge_features, bind.
  destruct (merge_loop_documents layers [] w) as (-> & _). reflexivity.
Qed.
End Merger.

Section MergerClaims.
Import DownloadDeraActions.
Variable server : nat -> request -> outcome.

(** A first attempt that brings a collection ends the fetch. *)
Lemma fetch_wfs_first_attempt url layer w s b :
  server (calls w) (wfs_request url layer) = Response s (Some b) ->
  (400 <=? s) && (s <? 600) = false ->
  is_collection b = true ->
  fetch_wfs server url layer w = (Ok b, asked w (wfs_request url layer)).
Proof.
  intros E Es Hb. unfold fetch_wfs. rewrite range_attempts.
  cbn [fetch_wfs_loop].
  now rewrite (fetch_wfs_try_succeeds server url layer w E Es Hb).
Qed.

(** One round of the merge loop over a layer whose fetch is known. *)
Lemma merge_loop_step url layer desc rest acc w data w1 :
  fetch_wfs server url layer w = (Ok data, w1) ->
  is_feature_collection data = true ->
  merge_loop server ((url, layer, desc) :: rest) acc w
  = merge_loop server rest
      (acc ++ map (tagged desc) (records_of data))%list w1.
Proof.
  intros E D. cbn [merge_loop]. unfold bind at 1. rewrite E.
  unfold bind at 1, lift at 1.
  rewrite (collection_features _ (feature_collection_is_collection _ D)).
  unfold bind at 1, lift at 1. cbn [py_iter].
  unfold bind at 1, lift at 1.
  rewrite map_tag_records by (apply feature_collection_records, D).
  reflexivity.
Qed.

(** Against a server that sends feature collections of records,
    [merge_features] sets ["_source"] in the attribute mapping of every
    record to the label of the layer's descriptor, creates the mapping when
    the record has no ["properties"], and leaves every other attribute and
    every other member of the record as it was; the output is these tagged
    records, layer after layer. *)
Lemma merge_features_tags_every_record layers w :
  serves is_feature_collection server ->
  let docs := fst (layer_documents server layers w) in
  fst (merge_features server layers w) = Ok (merged (tagged_records docs))
  /\ map fst docs = map (fun d => snd d) layers
  /\ forall desc data f,
       In (desc, data) docs -> In f (records_of data) ->
       In (tagged desc f) (tagged_records docs)
       /\ tag_feature desc f = Ok (tagged desc f)
       /\ member (tagged desc f) "properties"
          = Some (JObj (dict_set (attributes f) "_source" (JStr desc)))
       /\ dict_get (attributes (tagged desc f)) "_source" = Some (JStr desc)
       /\ (forall k, k <> "_source" ->
             dict_get (attributes (tagged desc f)) k
             = dict_get (attributes f) k)
       /\ (forall k, k <> "properties" ->
             member (tagged desc f) k = member f k).
Proof.
  intros polite docs.
  destruct (merge_loop_documents polite layers [] w) as (_ & K & F & _).
  split; [now rewrite merge_features_documents|].
  split; [exact K|].
  intros desc data f Hd Hf. fold docs in F.
  assert (R : is_record f = true).
  { rewrite Forall_forall in F. specialize (F _ Hd). cbn in F.
    apply feature_collection_records in F.
    rewrite forallb_forall in F. now apply F. }
  split.
  { unfold tagged_records. apply in_flat_map. exists (desc, data).
    split; [exact Hd|]. cbn. now apply in_map. }
  split; [now apply tag_feature_record|].
  split.
  { destruct f as [| | | |?|d]; try discriminate.
    rewrite tagged_record by exact R. cbn [member].
    apply dict_get_set_same. }
  rewrite tagged_attributes by exact R.
  split; [apply dict_get_set_same|].
  split.
  - intros k N. now apply dict_get_set_other.
  - intros k N. now apply tagged_member.
Qed.

End MergerClaims.


Section MissingKeyAndCrs.
Import DownloadDeraActions.
Variable server : nat -> request -> outcome.

Lemma write_json_writes path doc w :
  write_json path doc w
  = (Ok tt, mkWorld (calls w) (trace w ++ [WriteFile path doc])
                    (dict_set (files w) path doc)).
Proof. reflexivity. Qed.

(** What [save_geojson] does with a collection: the document goes to the
    file as it is and the count is the length of its ["features"]. *)
Lemma save_geojson_collection data filename w :
  is_collection data = true ->
  save_geojson data filename w
  = (Ok (Z.of_nat (List.length (records_of data))),
     mkWorld (calls w)
             (trace w ++ [WriteFile (OUTPUT_DIR ++ "/" ++ filename) data])
             (dict_set (files w) (OUTPUT_DIR ++ "/" ++ filename) data)).
Proof.
  intros C. unfold save_geojson, bind. rewrite write_json_writes.
  unfold lift. rewrite (collection_features _ C). reflexivity.
Qed.

(** C10. A successful response whose JSON object has no ["features"] key
    is read through [get("features", [])] as holding no records: [fetch_wfs]
    returns it without raising, the merge loop appends nothing for it, the
    merged collection of a category made of that layer alone is empty, and
    [save_geojson] reports 0 for the document and for the merged
    collection. *)
Theorem missing_features_key_counts_zero url layer desc rest acc s d w :
  dict_get d "features" = None ->
  server (calls w) (wfs_request url layer) = Response s (Some (JObj d)) ->
  (400 <=? s) && (s <? 600) = false ->
  let w1 := asked w (wfs_request url layer) in
  fetch_wfs server url layer w = (Ok (JObj d), w1)
  /\ merge_loop server ((url, layer, desc) :: rest) acc w
     = merge_loop server rest acc w1
  /\ merge_features server [(url, layer, desc)] w = (Ok (merged []), w1)
  /\ (forall filename w0,
        fst (save_geojson (JObj d) filename w0) = Ok 0)
  /\ (forall filename w0,
        fst (save_geojson (merged []) filename w0) = Ok 0).
Proof.
  intros Hd E Es w1.
  assert (C : is_feature_collection (JObj d) = true) by (cbn; now rewrite Hd).
  assert (R : records_of (JObj d) = []) by (cbn; now rewrite Hd).
  pose proof (@fetch_wfs_first_attempt server url layer w s (JObj d) E Es
                (feature_collection_is_collection _ C)) as X.
  fold w1 in X.
  assert (L : forall rest' acc',
             merge_loop server ((url, layer, desc) :: rest') acc' w
             = merge_loop server rest' acc' w1).
  { intros rest' acc'.
    rewrite merge_loop_step with (data := JObj d) (w1 := w1);
      [|exact X|exact C].
    rewrite R. cbn [map]. now rewrite app_nil_r. }
  split; [exact X|]. split; [apply L|]. split.
  - unfold merge_features, bind. rewrite L. reflexivity.
  - split; intros filename w0.
    + rewrite save_geojson_collection
        by (apply feature_collection_is_collection, C).
      cbn [fst]. now rewrite R.
    + reflexivity.
Qed.

(** C9, as the code has it.  The annotation [merge_features] writes is the
    constant naming EPSG:25830, whatever the upstream documents carry; it is
    the identifier every request of both scripts asks for; [save_geojson]
    stores the merged collection as it is; and tagging leaves every member
    of a record other than ["properties"], the geometry among them, as it
    was. *)
Theorem crs_annotation_is_constant layers w out w' :
  merge_features server layers w = (Ok out, w') ->
  member out "crs" = Some crs_annotation
  /\ crs_annotation
     = JObj [("type", JStr "name");
             ("properties", JObj [("name", JStr "EPSG:25830")])]
  /\ (forall url layer,
        dict_get (req_params (wfs_request url layer)) "SRSNAME"
        = Some "EPSG:25830")
  /\ (forall base layer cql i n,
        dict_get (snd (DownloadDera.build_wfs_url base layer cql i n))
                 "srsName"
        = Some "EPSG:25830")
  /\ (forall filename w0,
        writes (trace (snd (save_geojson out filename w0)))
        = (writes (trace w0) ++ [((OUTPUT_DIR ++ "/" ++ filename)%string, out)])%list)
  /\ (forall desc f k,
        is_record f = true -> k <> "properties" ->
        member (tagged desc f) k = member f k).
Proof.
  intros E. unfold merge_features, bind in E.
  destruct (merge_loop server layers [] w) as [[fs|e] w1]; [|discriminate].
  injection E as <- <-.
  split; [reflexivity|]. split; [reflexivity|]. split; [reflexivity|].
  split.
  { intros base layer cql i n. unfold DownloadDera.build_wfs_url. cbn [snd].
    destruct cql as [f|]; [|reflexivity].
    destruct (String.eqb f ""); [reflexivity|].
    rewrite dict_get_set_other by discriminate. reflexivity. }
  split.
  - intros filename w0. rewrite save_geojson_collection by reflexivity.
    cbn [snd trace]. rewrite writes_app. reflexivity.
  - intros desc f k R N. now apply tagged_member.
Qed.
End MissingKeyAndCrs.

Lemma missing_features_key_counts_zero_witness :
  DownloadDeraActions.merge_features (answers_once no_features_key)
    [("http://test.com", "test:layer", "Test Layer")] empty_world
  = (Ok (merged []),
     asked empty_world (wfs_request "http://test.com" "test:layer"))
  /\ fst (DownloadDeraActions.save_geojson no_features_key "x.geojson"
            empty_world) = Ok 0.
Proof.
  destruct (@missing_features_key_counts_zero (answers_once no_features_key)
              "http://test.com" "test:layer" "Test Layer" [] [] 200
              [("type", JStr "FeatureCollection");
               ("totalFeatures", JNum 0%Q)] empty_world)
    as (_ & _ & M & S & _); try reflexivity.
  split; [exact M|apply S].
Defined.

(** C9 as stated fails: the upstream document carries EPSG:4326 and the
    collection written for the category is annotated EPSG:25830. *)
Lemma crs_not_passed_through :
  exists out w',
    DownloadDeraActions.merge_features (answers_once upstream_4326)
      [("http://test.com", "test:layer", "Test Layer")] empty_world
    = (Ok out, w')
    /\ member upstream_4326 "crs" = Some upstream_crs
    /\ member out "crs" = Some DownloadDeraActions.crs_annotation
    /\ member out "crs" <> member upstream_4326 "crs".
Proof.
  eexists. eexists. split; [reflexivity|].
  split; [reflexivity|]. split; [reflexivity|].
  cbn. discriminate.
Qed.

Lemma crs_annotation_is_constant_witness :
  member (merged [tagged "Test Layer" named_record]) "crs"
  = Some DownloadDeraActions.crs_annotation.
Proof.
  refine (proj1 (@crs_annotation_is_constant (answers_once upstream_4326)
              [("http://test.com", "test:layer", "Test Layer")] empty_world
              (merged [tagged "Test Layer" named_record]) _ _)).
  reflexivity.
Defined.

(* ================================================================= *)
(** ** The run of download_dera_actions.py *)

Section ActionsRun.
Import DownloadDeraActions.
Variable server : nat -> request -> outcome.
Variable clock : world -> string.
Hypothesis polite : serves is_feature_collection server.

Lemma merge_features_returns layers w :
  exists fs w',
    merge_features server layers w = (Ok (merged fs), w') /\ no_writes w w'.
Proof.
  exists (tagged_records (fst (layer_documents server layers w))),
         (snd (layer_documents server layers w)).
  split; [now apply merge_features_documents|].
  now destruct (merge_loop_documents polite layers [] w) as (_ & _ & _ & N).
Qed.

(** The category loop: every category gets one document written, in order,
    and its entry in [stats] is the count of that document. *)
Lemma process_categories_outputs config : forall stats0 w,
  NoDup (dict_keys config) ->
  (forall k, In k (dict_keys config) -> ~ In k (dict_keys stats0)) ->
  exists docs w',
    process_categories server config stats0 w
    = (Ok (stats0 ++ counts docs)%list, w')
    /\ map fst docs = dict_keys config
    /\ writes (trace w')
       = (writes (trace w)
          ++ map (fun d => (category_file (fst d), snd d)) docs)%list
    /\ Forall (fun d => is_collection (snd d) = true) docs.
Proof.
  induction config as [|[category layers] config IH]; intros stats0 w ND Fresh.
  - exists [], w. cbn. rewrite !app_nil_r.
    split; [reflexivity|]. split; [reflexivity|]. split; [reflexivity|].
    constructor.
  - cbn [process_categories].
    destruct (merge_features_returns layers w) as (fs & w1 & E & [Nf Nw]).
    unfold bind at 1. rewrite E.
    unfold bind at 1. rewrite save_geojson_collection by reflexivity.
    cbn in ND. inversion ND as [|? ? Hnotin ND']; subst.
    rewrite dict_set_fresh by (apply Fresh; now left).
    match goal with |- context [process_categories _ _ ?st ?w2] =>
      destruct (IH st w2 ND') as (docs & w' & -> & K & W & F) end.
    { intros k Hk. unfold dict_keys. rewrite map_app, in_app_iff. cbn.
      intros [H|[H|[]]].
      - revert H. apply Fresh. now right.
      - subst. contradiction. }
    exists ((category, merged fs) :: docs), w'.
    split; [now rewrite <- app_assoc|].
    split; [cbn; now rewrite K|].
    split.
    + rewrite W. cbn [trace]. rewrite writes_app, Nw. cbn.
      now rewrite <- app_assoc.
    + constructor; [reflexivity|exact F].
Qed.

Lemma total_of_sum stats : total_of stats = py_sum (dict_values stats).
Proof.
  unfold total_of, py_sum, dict_values. generalize 0.
  induction stats as [|[k v] stats IH]; intros z; cbn; [reflexivity|].
  apply IH.
Qed.

Lemma fold_add_shift xs a : fold_left Z.add xs a = a + fold_left Z.add xs 0.
Proof.
  revert a. induction xs as [|x xs IH]; intros a; cbn; [lia|].
  rewrite IH, (IH x). lia.
Qed.

Lemma py_sum_cons x xs : py_sum (x :: xs) = x + py_sum xs.
Proof. unfold py_sum. cbn. apply fold_add_shift. Qed.

Lemma py_sum_nonneg xs : Forall (fun x => 0 <= x) xs -> 0 <= py_sum xs.
Proof.
  induction 1 as [|x xs Hx _ IH]; [reflexivity|].
  rewrite py_sum_cons. lia.
Qed.

Lemma py_sum_zero xs :
  Forall (fun x => 0 <= x) xs ->
  (py_sum xs = 0 <-> Forall (fun x => x = 0) xs).
Proof.
  induction 1 as [|x xs Hx Hxs IH]; [split; [constructor|reflexivity]|].
  rewrite py_sum_cons. pose proof (py_sum_nonneg Hxs) as P. split.
  - intros S. constructor; [lia|]. apply IH. lia.
  - intros F. inversion F; subst. apply IH in H2. lia.
Qed.

Lemma counts_values docs :
  dict_values (counts docs) = map (fun d => count_of (snd d)) docs.
Proof. unfold dict_values, counts. rewrite map_map. reflexivity. Qed.

Lemma counts_keys docs : dict_keys (counts docs) = map fst docs.
Proof. unfold dict_keys, counts. rewrite map_map. reflexivity. Qed.

(** The whole run: one document per category, then the summary, and the
    exit code read off the total. *)
Lemma main_on_runs config w :
  NoDup (dict_keys config) ->
  exists docs w1,
    process_categories server config [] w = (Ok (counts docs), w1)
    /\ map fst docs = dict_keys config
    /\ writes (trace w1)
       = (writes (trace w)
          ++ map (fun d => (category_file (fst d), snd d)) docs)%list
    /\ Forall (fun d => is_collection (snd d) = true) docs
    /\ main_on server clock config w
       = (Ok (if 0 <? py_sum (dict_values (counts docs)) then 0 else 1),
          snd (update_metadata clock (counts docs) w1)).
Proof.
  intros ND.
  destruct (@process_categories_outputs config [] w ND)
    as (docs & w1 & E & K & W & F); [intros k _ []|].
  cbn [app] in E. exists docs, w1.
  split; [exact E|]. split; [exact K|]. split; [exact W|]. split; [exact F|].
  unfold main_on. unfold bind at 1. rewrite E.
  unfold bind at 1. unfold update_metadata at 1. rewrite write_json_writes.
  rewrite total_of_sum.
  destruct (0 <? py_sum (dict_values (counts docs))); reflexivity.
Qed.
End ActionsRun.

Section Summary.
Import DownloadDeraActions.
Variable server : nat -> request -> outcome.
Variable clock : world -> string.

(** What [update_metadata] writes for a count mapping. *)
Lemma update_metadata_writes stats w :
  exists summary,
    update_metadata clock stats w
    = (Ok tt, mkWorld (calls w)
                      (trace w ++ [WriteFile METADATA_FILE summary])
                      (dict_set (files w) METADATA_FILE summary))
    /\ member summary "layers" = Some (stats_json stats)
    /\ member summary "totalFeatures"
       = Some (JNum (inject_Z (py_sum (dict_values stats)))).
Proof.
  eexists. split; [reflexivity|]. split; reflexivity.
Qed.

End Summary.

(* ================================================================= *)
(** ** Exit codes *)

Section DeraExit.
Import DownloadDera.
Variable server : nat -> request -> outcome.
Variable clock : world -> string.

Lemma dict_set_values_true (results : dict bool) k :
  Forall (fun v => v = true) (dict_values results) ->
  Forall (fun v => v = true) (dict_values (dict_set results k true)).
Proof.
  induction results as [|[k' v'] results IH]; cbn; intros F.
  - repeat constructor.
  - inversion F; subst. destruct (String.eqb k' k); cbn.
    + constructor; [reflexivity|assumption].
    + constructor; [reflexivity|now apply IH].
Qed.

(** [download_layer] returns [True] for every configured key, whatever was
    downloaded. *)
Lemma download_layer_in_known config fuel key out w ok w' :
  download_layer_in server clock config fuel key out w = Some (Ok ok, w') ->
  ok = dict_mem config key.
Proof.
  unfold download_layer_in, dict_mem.
  destruct (dict_get config key) as [c|].
  - unfold bindF.
    destruct (download_sources server clock fuel (cfg_urls c) [] w)
      as [[[fs|e] w1]|]; try discriminate.
    unfold liftF, bind. rewrite write_json_writes. cbn.
    intros [= <- _]. reflexivity.
  - unfold retF. intros [= <- _]. reflexivity.
Qed.

Lemma download_keys_all_true config fuel out keys : forall results w res w',
  (forall k, In k keys -> dict_mem config k = true) ->
  Forall (fun v => v = true) (dict_values results) ->
  download_keys server clock config fuel keys out results w
  = Some (Ok res, w') ->
  Forall (fun v => v = true) (dict_values res).
Proof.
  induction keys as [|k keys IH]; intros results w res w' Known F E.
  - cbn in E. unfold retF in E. congruence.
  - cbn [download_keys] in E. unfold bindF at 1 in E.
    destruct (download_layer_in server clock config fuel k out w)
      as [[[ok|e] w1]|] eqn:D; try discriminate.
    apply download_layer_in_known in D.
    rewrite (Known k (or_introl eq_refl)) in D. subst ok.
    eapply IH; [|apply dict_set_values_true, F|exact E].
    intros k' Hk'. apply Known. now right.
Qed.

Lemma keys_are_members (V : Type) (config : dict V) k :
  In k (dict_keys config) -> dict_mem config k = true.
Proof.
  unfold dict_mem. intros H.
  destruct (dict_get config k) eqn:E; [reflexivity|].
  now apply dict_get_none_not_in in E.
Qed.

Lemma count_true_values (res : dict bool) :
  Forall (fun v => v = true) (dict_values res) ->
  (Z.of_nat (List.length (filter (fun v => v) (dict_values res)))
   =? Z.of_nat (List.length res)) = true.
Proof.
  intros F. apply Z.eqb_eq. f_equal.
  unfold dict_values in *. rewrite <- (length_map snd res).
  f_equal. induction (map snd res) as [|v vs IH]; [reflexivity|].
  inversion F; subst. cbn. f_equal. now apply IH.
Qed.

Lemma members_are_keys (V : Type) (config : dict V) k :
  dict_mem config k = true -> In k (dict_keys config).
Proof.
  unfold dict_mem. intros H.
  destruct (in_dec string_dec k (dict_keys config)) as [I|N]; [exact I|].
  now rewrite (dict_get_not_in _ _ N) in H.
Qed.

(** The layers [parse_args] lets through: ["all"] and the configured
    keys. *)
Lemma layer_choice_accepted config (a : args) :
  existsb (String.eqb (arg_layer a)) (layer_choices config) = true
  <-> arg_layer a = "all" \/ dict_mem config (arg_layer a) = true.
Proof.
  unfold layer_choices. rewrite existsb_exists. split.
  - intros (k & I & E). apply String.eqb_eq in E. subst k.
    apply in_app_iff in I as [I|[I|[]]].
    + right. now apply keys_are_members.
    + left. now symmetry.
  - intros [A|K]; exists (arg_layer a); rewrite String.eqb_refl;
      (split; [|reflexivity]); apply in_app_iff.
    + right. left. now symmetry.
    + left. now apply members_are_keys.
Qed.

(** [main] of download_dera.py returns 0 whenever the layers asked for are
    configured ones. *)
Lemma main_in_exit_zero config fuel a w code w' :
  main_in server clock config fuel a w = Some (Ok code, w') ->
  arg_layer a = "all" \/ dict_mem config (arg_layer a) = true ->
  code = 0.
Proof.
  unfold main_in. intros E Known.
  rewrite (proj2 (layer_choice_accepted config a) Known) in E.
  cbn [negb] in E. revert E.
  destruct (arg_list a); [unfold retF; congruence|].
  intros E. unfold bindF at 1 in E.
  destruct (String.eqb_spec (arg_layer a) "all") as [A|A].
  - unfold download_all_in in E.
    destruct (download_keys server clock config fuel (dict_keys config)
                (arg_output a) [] w) as [[[res|e] w1]|] eqn:D;
      try discriminate.
    apply download_keys_all_true in D;
      [|apply keys_are_members|constructor].
    unfold retF in E. rewrite (@count_true_values res D) in E. congruence.
  - destruct Known as [|Known]; [contradiction|].
    unfold bindF at 1 in E.
    destruct (download_layer_in server clock config fuel (arg_layer a)
                (arg_output a) w) as [[[ok|e] w1]|] eqn:D; try discriminate.
    apply download_layer_in_known in D. rewrite Known in D. subst ok.
    unfold retF in E. cbn in E. congruence.
Qed.
End DeraExit.

Section ExitCode.
Import DownloadDeraActions.
Variable server : nat -> request -> outcome.
Variable clock : world -> string.

Lemma count_of_nonneg doc : 0 <= count_of doc.
Proof. unfold count_of. lia. Qed.

End ExitCode.

(** C8 as stated fails: download_dera_actions.py exits with 0 although five
    of its six categories yield no record, and download_dera.py returns 0
    although every category it writes is empty. *)
Lemma exit_zero_with_empty_categories :
  (exists w' summary,
     DownloadDeraActions.main (answers_once two_records) fixed_clock
                              empty_world = (Ok 0, w')
     /\ dict_get (files w') DownloadDeraActions.METADATA_FILE = Some summary
     /\ member summary "layers"
        = Some (DownloadDeraActions.stats_json
                  [("health", 2); ("security", 0); ("education", 0);
                   ("municipal", 0); ("emergency", 0); ("energy", 0)]))
  /\ (exists w',
        DownloadDera.main always_times_out fixed_clock 1 all_layers
                          empty_world = Some (Ok 0, w')
        /\ List.length (writes (trace w')) = 5%nat
        /\ Forall (fun pd => records_of (snd pd) = [])
                  (writes (trace w'))).
Proof.
  split.
  - eexists. eexists. split; [vm_compute; reflexivity|].
    split; [vm_compute; reflexivity|]. vm_compute. reflexivity.
  - eexists. split; [vm_compute; reflexivity|].
    split; [reflexivity|]. cbn. repeat constructor.
Qed.

(* ================================================================= *)
(** ** The paginated fetch of download_dera.py *)

Unset Implicit Arguments.

Section Rounds.
Import DownloadDera.
Variable server : nat -> request -> outcome.
Variables (url layer : string) (cql_filter : option string).

Local Abbreviation req i := (page_request url layer cql_filter i BATCH_SIZE).

(** The GET of a round, up to the parsed document. *)
Lemma round_try_unfold acc i w :
  round_try server url layer cql_filter acc i w
  = match server (calls w) (req i) with
    | NoAnswer => (Raise Timeout, asked w (req i))
    | Broken => (Raise ConnectionError, asked w (req i))
    | Response s b =>
        if (400 <=? s) && (s <? 600)
        then (Raise (HTTPError s), asked w (req i))
        else
          match b with
          | None => (Raise RequestsJSONDecodeError, asked w (req i))
          | Some data =>
              (features <- lift (py_get data "features" (JArr [])) ;;
               if negb (py_truthy features) then ret (Break acc)
               else
                 items <- lift (py_iter features) ;;
                 n <- lift (py_len features) ;;
                 if n <? BATCH_SIZE then ret (Break (acc ++ items)%list)
                 else time_sleep (1 # 2) ;;;
                      ret (Continue (acc ++ items)%list (i + BATCH_SIZE)))
                (asked w (req i))
          end
    end.
Proof.
  unfold round_try, bind at 1, requests_get. cbv zeta.
  fold (req i). fold (asked w (req i)).
  destruct (server (calls w) (req i)) as [| |s b]; try reflexivity.
  unfold bind at 1, raise_for_status. cbn [status_code].
  destruct ((400 <=? s) && (s <? 600)); [reflexivity|].
  unfold ret at 1. unfold bind at 1, response_json. cbn [body].
  destruct b; reflexivity.
Qed.

(** A round whose GET fails transiently raises a [RequestException]. *)
Lemma round_try_fails acc i w :
  transient_failure (server (calls w) (req i)) = true ->
  exists e, isinstance_RequestException e = true /\
    round_try server url layer cql_filter acc i w
    = (Raise e, asked w (req i)).
Proof.
  intros H. rewrite round_try_unfold.
  destruct (server (calls w) (req i)) as [| |s b].
  - exists Timeout. split; reflexivity.
  - exists ConnectionError. split; reflexivity.
  - cbn in H. destruct ((400 <=? s) && (s <? 600)).
    + exists (HTTPError s). split; reflexivity.
    + destruct b; [discriminate|].
      exists RequestsJSONDecodeError. split; reflexivity.
Qed.

(** A round whose GET brings a collection: it stops on an empty page, stops
    after a short page, and goes on, after the delay, past a full one. *)
Lemma round_try_answered acc i w s b :
  server (calls w) (req i) = Response s (Some b) ->
  (400 <=? s) && (s <? 600) = false ->
  is_collection b = true ->
  let items := records_of b in
  round_try server url layer cql_filter acc i w
  = if Z.of_nat (List.length items) =? 0
    then (Ok (Break acc), asked w (req i))
    else if Z.of_nat (List.length items) <? BATCH_SIZE
    then (Ok (Break (acc ++ items)%list), asked w (req i))
    else (Ok (Continue (acc ++ items)%list (i + BATCH_SIZE)),
          sent (asked w (req i)) (Sleep (1 # 2))).
Proof.
  intros E Es C items. rewrite round_try_unfold, E, Es.
  unfold bind at 1, lift at 1. rewrite (collection_features _ C).
  fold items. cbn [py_truthy].
  destruct items as [|f items'] eqn:I; [reflexivity|].
  cbn [negb]. unfold bind at 1, lift at 1. cbn [py_iter].
  unfold bind at 1, lift at 1. cbn [py_len py_iter].
  replace (Z.of_nat (List.length (f :: items')) =? 0) with false
    by (symmetry; apply Z.eqb_neq; cbn [List.length]; lia).
  destruct (Z.of_nat (List.length (f :: items')) <? BATCH_SIZE);
    reflexivity.
Qed.



(** A failed GET ends the loop with what was accumulated, after that one
    GET. *)
Lemma fetch_loop_abandons fuel acc i w :
  transient_failure (server (calls w) (req i)) = true ->
  fetch_loop server (S fuel) url layer cql_filter acc i w
  = Some (Ok acc, asked w (req i)).
Proof.
  intros H. cbn [fetch_loop].
  destruct (round_try_fails acc i w H) as (e & He & ->).
  now rewrite He.
Qed.
End Rounds.

Section Refinement.
Import DownloadDera.
Variable server : nat -> request -> outcome.
Variable clock : world -> string.
Variables (url layer : string) (cql_filter : option string).

Lemma after_log_nil w : after_log url layer cql_filter [] w = w.
Proof.
  destruct w. unfold after_log. cbn. now rewrite Nat.add_0_r, app_nil_r.
Qed.

Lemma after_log_request i n w :
  after_log url layer cql_filter [Requested i n] w
  = asked w (page_request url layer cql_filter i n).
Proof. unfold after_log, asked. cbn. now rewrite Nat.add_1_r. Qed.

Lemma after_log_round i n log w :
  after_log url layer cql_filter (Requested i n :: Delayed :: log) w
  = after_log url layer cql_filter log
      (sent (asked w (page_request url layer cql_filter i n))
            (Sleep (1 # 2))).
Proof.
  unfold after_log, sent, asked. cbn. f_equal.
  - now rewrite Nat.add_succ_r.
  - now rewrite <- !app_assoc.
Qed.

(** The loop of the code is the pagination of the specification run
    against the records the server brings. *)
Lemma fetch_loop_refines fuel : forall acc i w,
  always_answers server ->
  fetch_loop server fuel url layer cql_filter acc i w
  = match spec_paginate (served_records server url layer cql_filter)
            BATCH_SIZE fuel (calls w) i acc with
    | None => None
    | Some (all, log) =>
        Some (Ok all, after_log url layer cql_filter log w)
    end.
Proof.
  induction fuel as [|fuel IH]; intros acc i w A; [reflexivity|].
  cbn [fetch_loop spec_paginate].
  destruct (A (calls w) (page_request url layer cql_filter i BATCH_SIZE))
    as (s & b & E & Es & C).
  rewrite (round_try_answered server url layer cql_filter acc i w s b E Es C).
  assert (R : served_records server url layer cql_filter (calls w) i
                 BATCH_SIZE = records_of b)
    by (unfold served_records; now rewrite E).
  cbv zeta. rewrite !R.
  destruct (Z.of_nat (List.length (records_of b)) =? 0).
  { now rewrite after_log_request. }
  destruct (Z.of_nat (List.length (records_of b)) <? BATCH_SIZE).
  { now rewrite after_log_request. }
  rewrite IH by exact A. cbn [calls sent asked].
  destruct (spec_paginate _ _ fuel (S (calls w)) _ _) as [[all log]|];
    [|reflexivity].
  now rewrite after_log_round.
Qed.

(** The log of a finished pagination: a run of requests for [page_size]
    records at offsets that advance by [page_size], a delay between two
    consecutive ones. *)
Lemma spec_paginate_log round page_size fuel : forall k offset acc all log,
  spec_paginate round page_size fuel k offset acc = Some (all, log) ->
  exists m, (0 < m <= fuel)%nat /\ log = rounds_log m offset page_size.
Proof.
  induction fuel as [|fuel IH]; intros k offset acc all log E;
    [discriminate|].
  cbn [spec_paginate] in E.
  destruct (Z.of_nat (List.length (round k offset page_size)) =? 0).
  { injection E as _ <-. exists 1%nat. split; [lia|reflexivity]. }
  destruct (Z.of_nat (List.length (round k offset page_size)) <? page_size).
  { injection E as _ <-. exists 1%nat. split; [lia|reflexivity]. }
  destruct (spec_paginate round page_size fuel (S k) (offset + page_size) _)
    as [[all' log']|] eqn:R; [|discriminate].
  injection E as _ <-.
  destruct (IH _ _ _ _ _ R) as (m & Hm & ->).
  exists (S m). split; [lia|].
  destruct m; [lia|reflexivity].
Qed.

(** C1. Against a server that answers every request, the paginated fetcher
    is the cursor pagination of the specification with page size 1000,
    started at offset 0 with nothing assembled: each round asks for exactly
    1000 records at the running offset, an empty round ends it, a short
    round ends it after its records are appended, and a full round appends
    its records, advances the offset by 1000 and waits the half-second
    delay before the next one. *)
Theorem fetch_wfs_features_follows_cursor_pagination fuel description w :
  always_answers server ->
  BATCH_SIZE = 1000
  /\ fetch_wfs_features server clock fuel url layer description cql_filter w
     = match spec_paginate (served_records server url layer cql_filter)
               1000 fuel (calls w) 0 [] with
       | None => None
       | Some (all, log) =>
           let w' := after_log url layer cql_filter log w in
           Some (Ok (fetched all layer (clock w')), w')
       end
  /\ forall doc w',
       fetch_wfs_features server clock fuel url layer description
                          cql_filter w = Some (Ok doc, w') ->
       exists m, (0 < m <= fuel)%nat
         /\ trace w'
            = (trace w
               ++ map (effect_of url layer cql_filter)
                      (rounds_log m 0 1000))%list.
Proof.
  intros A. split; [reflexivity|].
  assert (F : fetch_wfs_features server clock fuel url layer description
                                 cql_filter w
              = match spec_paginate (served_records server url layer cql_filter)
                        1000 fuel (calls w) 0 [] with
                | None => None
                | Some (all, log) =>
                    let w' := after_log url layer cql_filter log w in
                    Some (Ok (fetched all layer (clock w')), w')
                end).
  { unfold fetch_wfs_features, bindF. rewrite fetch_loop_refines by exact A.
    change BATCH_SIZE with 1000.
    destruct (spec_paginate _ 1000 fuel (calls w) 0 []) as [[all log]|];
      reflexivity. }
  split; [exact F|].
  intros doc w' E. rewrite F in E.
  destruct (spec_paginate _ 1000 fuel (calls w) 0 []) as [[all log]|] eqn:S;
    [|discriminate].
  cbv zeta in E. injection E as _ <-.
  destruct (spec_paginate_log _ _ _ _ _ _ _ _ S) as (m & Hm & ->).
  exists m. split; [exact Hm|reflexivity].
Qed.
End Refinement.

Section Abandon.
Import DownloadDera.
Variable server : nat -> request -> outcome.
Variable clock : world -> string.
Variables (url layer : string) (cql_filter : option string).

Local Abbreviation req i := (page_request url layer cql_filter i BATCH_SIZE).

Lemma fetch_loop_S fuel acc i w :
  fetch_loop server (S fuel) url layer cql_filter acc i w
  = match round_try server url layer cql_filter acc i w with
    | (Ok (Break fs), w') => Some (Ok fs, w')
    | (Ok (Continue fs j), w') =>
        fetch_loop server fuel url layer cql_filter fs j w'
    | (Raise e, w') =>
        if isinstance_RequestException e
        then Some (Ok acc, w')
        else Some (Raise e, w')
    end.
Proof. reflexivity. Qed.


End Abandon.

(* ================================================================= *)
(** ** An endpoint holding finitely many records *)

Section Store.
Import DownloadDera.
Variable records : list json.
Variable clock : world -> string.
Variables (url layer : string) (cql_filter : option string).

Local Abbreviation req i := (page_request url layer cql_filter i BATCH_SIZE).







End Store.

Section StoreClaims.
Import DownloadDera.
Variable records : list json.
Variable clock : world -> string.
Variables (url layer : string) (cql_filter : option string).

Lemma layer_store_always_answers : always_answers (layer_store records).
Proof.
  intros n r. unfold layer_store. eexists. eexists.
  split; [reflexivity|]. split; reflexivity.
Qed.


End StoreClaims.



Lemma fetch_wfs_features_follows_cursor_pagination_witness :
  exists doc w',
    DownloadDera.fetch_wfs_features (layer_store full_page) fixed_clock 2
      "http://test.com" "test:layer" "Test Layer" None empty_world
    = Some (Ok doc, w')
    /\ trace w'
       = [Get (page_request "http://test.com" "test:layer" None 0 1000);
          Sleep (1 # 2);
          Get (page_request "http://test.com" "test:layer" None 1000 1000)].
Proof.
  destruct (fetch_wfs_features_follows_cursor_pagination
              (layer_store full_page) fixed_clock
              "http://test.com" "test:layer" None 2 "Test Layer" empty_world
              (layer_store_always_answers full_page))
    as (_ & F & _).
  rewrite F. vm_compute. eexists. eexists. split; reflexivity.
Defined.


(* ================================================================= *)
(** ** Further properties of the two scripts *)

Section UrlParameters.
Import DownloadDera.


End UrlParameters.

Section UrlText.
Import DownloadDera.

Lemma append_empty_r (s : string) : s ++ "" = s.
Proof. induction s as [|c s IH]; [reflexivity|]. cbn. now rewrite IH. Qed.

Lemma append_assoc (a b c : string) : (a ++ b) ++ c = a ++ (b ++ c).
Proof. induction a as [|x a IH]; [reflexivity|]. cbn. now rewrite IH. Qed.

Lemma append_inv_head (a x y : string) : a ++ x = a ++ y -> x = y.
Proof.
  induction a as [|c a IH]; [trivial|]. cbn. intros E. injection E as E.
  now apply IH.
Qed.

Ltac each_byte c :=
  destruct c as [[] [] [] [] [] [] [] []]; reflexivity.

Lemma unquote_quote_byte c t :
  unquote_plus (quote_byte c ++ t) = String c (unquote_plus t).
Proof. each_byte c. Qed.

Lemma cut_quote_byte c t :
  cut "=" (quote_byte c ++ t)
  = (quote_byte c ++ fst (cut "=" t), snd (cut "=" t)).
Proof. each_byte c. Qed.

Lemma split_quote_byte c t :
  split_on "&" (quote_byte c ++ t)
  = (quote_byte c ++ fst (split_on "&" t), snd (split_on "&" t)).
Proof. each_byte c. Qed.

(** Escaping loses nothing. *)
Lemma unquote_quote_plus s : unquote_plus (quote_plus s) = s.
Proof.
  induction s as [|c s IH]; [reflexivity|]. cbn [quote_plus].
  now rewrite unquote_quote_byte, IH.
Qed.

Lemma cut_quote_plus s t :
  cut "=" (quote_plus s ++ String "=" t) = (quote_plus s, t).
Proof.
  induction s as [|c s IH]; [reflexivity|]. cbn [quote_plus].
  rewrite append_assoc, cut_quote_byte, IH. reflexivity.
Qed.

Lemma split_quote_plus s t :
  split_on "&" (quote_plus s ++ t)
  = (quote_plus s ++ fst (split_on "&" t), snd (split_on "&" t)).
Proof.
  induction s as [|c s IH].
  - cbn. now destruct (split_on "&" t).
  - cbn [quote_plus]. rewrite append_assoc, split_quote_byte, IH.
    cbn [fst snd]. now rewrite append_assoc.
Qed.

Local Abbreviation pair_text :=
  (fun kv : string * string => quote_plus (fst kv) ++ "=" ++ quote_plus (snd kv)).

Lemma split_pair_text kv t :
  split_on "&" (pair_text kv ++ t)
  = (pair_text kv ++ fst (split_on "&" t), snd (split_on "&" t)).
Proof.
  cbv beta. rewrite append_assoc, split_quote_plus.
  change (("=" ++ quote_plus (snd kv)) ++ t)
    with (String "=" (quote_plus (snd kv) ++ t)).
  cbn [split_on]. change (Ascii.eqb "=" "&") with false. cbv iota.
  rewrite split_quote_plus. cbn [fst snd].
  rewrite append_assoc. reflexivity.
Qed.

Lemma decode_pair_text kv : decode_pair (pair_text kv) = kv.
Proof.
  unfold decode_pair. cbv beta.
  change ("=" ++ quote_plus (snd kv)) with (String "=" (quote_plus (snd kv))).
  rewrite cut_quote_plus. cbn [fst snd].
  rewrite !unquote_quote_plus. now destruct kv.
Qed.

Lemma pair_text_not_empty kv t : pair_text kv ++ t <> "".
Proof.
  cbv beta. rewrite append_assoc.
  destruct (quote_plus (fst kv)); discriminate.
Qed.

Lemma urlencode_one kv : urlencode [kv] = pair_text kv.
Proof. reflexivity. Qed.

Lemma urlencode_more kv kv' params :
  urlencode (kv :: kv' :: params)
  = pair_text kv ++ String "&" (urlencode (kv' :: params)).
Proof. reflexivity. Qed.

Lemma pieces_of_urlencode params : forall kv,
  split_on "&" (urlencode (kv :: params))
  = (pair_text kv, map pair_text params).
Proof.
  induction params as [|kv' params IH]; intros kv.
  - rewrite urlencode_one, <- (append_empty_r (pair_text kv)) at 1.
    rewrite split_pair_text. cbn [split_on fst snd map].
    now rewrite append_empty_r.
  - rewrite urlencode_more, split_pair_text.
    cbn [split_on]. change (Ascii.eqb "&" "&") with true. cbv iota.
    rewrite IH. cbn [fst snd map]. now rewrite append_empty_r.
Qed.

(** Whatever the keys and values hold, the query string decodes to the
    parameters it was made from, in their order. *)
Lemma decode_urlencode params : decode_query (urlencode params) = params.
Proof.
  destruct params as [|kv params]; [reflexivity|].
  unfold decode_query.
  assert (N : String.eqb (urlencode (kv :: params)) "" = false).
  { apply String.eqb_neq. destruct params as [|kv' params].
    - rewrite urlencode_one, <- (append_empty_r (pair_text kv)).
      apply pair_text_not_empty.
    - rewrite urlencode_more. apply pair_text_not_empty. }
  rewrite N, pieces_of_urlencode. cbn [fst snd map].
  rewrite decode_pair_text. f_equal. clear N.
  induction params as [|p params IH]; [reflexivity|].
  cbn [map]. now rewrite decode_pair_text, IH.
Qed.

(** Two URLs on the same base have the same text only when they carry the
    same parameters: keeping base and parameters apart loses nothing. *)
Lemma url_text_injective base p p' :
  url_text (base, p) = url_text (base, p') -> p = p'.
Proof.
  unfold url_text. cbn [fst snd]. intros E.
  apply append_inv_head in E. apply (append_inv_head "?") in E.
  rewrite <- (decode_urlencode p), <- (decode_urlencode p'). now rewrite E.
Qed.

End UrlText.

Section FetchWfsMore.
Import DownloadDeraActions.
Variable server : nat -> request -> outcome.
Variables (url layer : string).

Local Abbreviation r := (wfs_request url layer).

(** Whatever an attempt meets, it has issued exactly one GET. *)
Lemma fetch_wfs_try_world w :
  snd (fetch_wfs_try server (full_url url layer) w) = asked w r.
Proof.
  unfold fetch_wfs_try, bind, requests_get. cbv zeta.
  fold r. fold (asked w r).
  destruct (server (calls w) r) as [| |s b]; try reflexivity.
  unfold raise_for_status. cbn [status_code].
  destruct ((400 <=? s) && (s <? 600)); [reflexivity|].
  cbn. destruct b as [b|]; [|reflexivity]. cbn.
  destruct b as [| | | |?|d]; try reflexivity. cbn.
  destruct (dict_get d "features") as [[| | | | |]|]; reflexivity.
Qed.

(** A failed attempt in the loop: the pause, unless it was the last
    attempt, and the next attempt. *)
Lemma fetch_wfs_loop_retry a rest w :
  transient_failure (server (calls w) r) = true ->
  fetch_wfs_loop server (a :: rest) (full_url url layer) w
  = fetch_wfs_loop server rest (full_url url layer)
      (if a <? MAX_RETRIES then sent (asked w r) (Sleep RETRY_DELAY)
       else asked w r).
Proof.
  intros F. cbn [fetch_wfs_loop].
  destruct (fetch_wfs_try_fails server url layer w F) as (e & C & ->).
  rewrite C. unfold bind at 1. destruct (a <? MAX_RETRIES); reflexivity.
Qed.

(** X2. When the first [k] attempts (k = 0, 1 or 2) fail transiently and
    the next one brings a collection, [fetch_wfs] returns that document as
    it came, after exactly k + 1 GETs of the same request and k pauses of
    [RETRY_DELAY]; it asks nothing more. *)
Theorem fetch_wfs_recovers k s b w :
  (k < 3)%nat ->
  (forall j, (j < k)%nat ->
     transient_failure (server (calls w + j) r) = true) ->
  server (calls w + k)%nat r = Response s (Some b) ->
  (400 <=? s) && (s <? 600) = false ->
  is_collection b = true ->
  fetch_wfs server url layer w
  = (Ok b, mkWorld (calls w + S k)
                   (trace w ++ attempts_trace (S k) r)
                   (files w)).
Proof.
  intros Hk F E Es C. unfold fetch_wfs. rewrite range_attempts.
  destruct k as [|[|[|k]]]; [| | |lia].
  - rewrite Nat.add_0_r in E. cbn [fetch_wfs_loop].
    rewrite (fetch_wfs_try_succeeds server url layer w E Es C).
    unfold asked. now rewrite Nat.add_1_r.
  - rewrite fetch_wfs_loop_retry
      by (rewrite <- (Nat.add_0_r (calls w)); apply F; lia).
    change (1 <? MAX_RETRIES) with true. cbv iota.
    cbn [fetch_wfs_loop].
    rewrite (@fetch_wfs_try_succeeds server url layer
               (sent (asked w r) (Sleep RETRY_DELAY)) s b);
      [|cbn [calls sent asked]; now rewrite <- Nat.add_1_r|exact Es|exact C].
    unfold asked, sent. cbn [calls trace files attempts_trace].
    f_equal. f_equal; [lia|now rewrite <- !app_assoc].
  - rewrite fetch_wfs_loop_retry
      by (rewrite <- (Nat.add_0_r (calls w)); apply F; lia).
    change (1 <? MAX_RETRIES) with true. cbv iota.
    rewrite fetch_wfs_loop_retry
      by (cbn [calls sent asked]; rewrite <- Nat.add_1_r; apply F; lia).
    change (2 <? MAX_RETRIES) with true. cbv iota.
    cbn [fetch_wfs_loop].
    rewrite (@fetch_wfs_try_succeeds server url layer
               (sent (asked (sent (asked w r) (Sleep RETRY_DELAY)) r)
                     (Sleep RETRY_DELAY)) s b);
      [|cbn [calls sent asked];
        now replace (S (S (calls w))) with (calls w + 2)%nat by lia
       |exact Es|exact C].
    unfold asked, sent. cbn [calls trace files attempts_trace].
    f_equal. f_equal; [lia|now rewrite <- !app_assoc].
Qed.

Lemma fetch_wfs_loop_cons a rest w :
  fetch_wfs_loop server (a :: rest) (full_url url layer) w
  = match fetch_wfs_try server (full_url url layer) w with
    | (Ok data, w') => (Ok data, w')
    | (Raise e, w') =>
        if fetch_wfs_catches e
        then fetch_wfs_loop server rest (full_url url layer)
               (if a <? MAX_RETRIES then sent w' (Sleep RETRY_DELAY) else w')
        else (Raise e, w')
    end.
Proof.
  cbn [fetch_wfs_loop].
  destruct (fetch_wfs_try server (full_url url layer) w) as [[d|e] w'];
    [reflexivity|].
  destruct (fetch_wfs_catches e); [|reflexivity].
  unfold bind at 1. destruct (a <? MAX_RETRIES); reflexivity.
Qed.

Ltac finish_attempts :=
  cbn [snd calls trace files sent asked attempts_trace];
  rewrite <- ?app_assoc;
  repeat split; try lia; try reflexivity.

Ltac next_attempt w d e :=
  rewrite fetch_wfs_loop_cons;
  let W := fresh "W" in
  let w' := fresh "w'" in
  pose proof (fetch_wfs_try_world w) as W;
  destruct (fetch_wfs_try server (full_url url layer) w) as [[d|e] w'];
  cbn [snd] in W; subst w'.

(** X3. Whatever the server does, one call of [fetch_wfs] issues between
    one and three GETs, all of the same request, with a pause of
    [RETRY_DELAY] between consecutive ones and none after the last, and it
    touches no file. *)
Theorem fetch_wfs_attempts_bound w :
  exists k,
    (1 <= k <= 3)%nat
    /\ trace (snd (fetch_wfs server url layer w))
       = (trace w ++ attempts_trace k r)%list
    /\ calls (snd (fetch_wfs server url layer w)) = (calls w + k)%nat
    /\ files (snd (fetch_wfs server url layer w)) = files w.
Proof.
  unfold fetch_wfs. rewrite range_attempts.
  next_attempt w d1 e1; [exists 1%nat; finish_attempts|].
  destruct (fetch_wfs_catches e1); [|exists 1%nat; finish_attempts].
  change (1 <? MAX_RETRIES) with true. cbv iota.
  next_attempt (sent (asked w r) (Sleep RETRY_DELAY)) d2 e2;
    [exists 2%nat; finish_attempts|].
  destruct (fetch_wfs_catches e2); [|exists 2%nat; finish_attempts].
  change (2 <? MAX_RETRIES) with true. cbv iota.
  exists 3%nat.
  next_attempt (sent (asked (sent (asked w r) (Sleep RETRY_DELAY)) r)
                     (Sleep RETRY_DELAY)) d3 e3;
    [finish_attempts|].
  destruct (fetch_wfs_catches e3); [|finish_attempts].
  change (3 <? MAX_RETRIES) with false. cbv iota.
  cbn [fetch_wfs_loop]. unfold ret. finish_attempts.
Qed.
End FetchWfsMore.

Lemma fetch_wfs_recovers_witness :
  fst (DownloadDeraActions.fetch_wfs (answers_third two_records)
         "http://test.com" "test:layer" empty_world) = Ok two_records.
Proof.
  rewrite (fetch_wfs_recovers (answers_third two_records)
             "http://test.com" "test:layer" 2 200 two_records empty_world).
  - reflexivity.
  - lia.
  - intros j Hj. destruct j as [|[|j]]; [reflexivity|reflexivity|lia].
  - reflexivity.
  - reflexivity.
  - reflexivity.
Defined.

Section Uncaught.
Import DownloadDeraActions.
Variable server : nat -> request -> outcome.
Variables (url layer : string).

Local Abbreviation r := (wfs_request url layer).

(** X4. [fetch_wfs] retries only what its [except] clauses name.  A
    success response whose JSON is not an object raises [AttributeError],
    and one whose ["features"] has no length ([null], a boolean, a number)
    raises [TypeError]: either leaves [fetch_wfs] after that single GET,
    with no retry and no pause. *)
Theorem fetch_wfs_lets_shape_errors_out s b w :
  server (calls w) r = Response s (Some b) ->
  (400 <=? s) && (s <? 600) = false ->
  (is_object b = false ->
     fetch_wfs server url layer w = (Raise AttributeError, asked w r))
  /\ (forall d v,
        b = JObj d -> dict_get d "features" = Some v ->
        py_len v = Raise TypeError ->
        fetch_wfs server url layer w = (Raise TypeError, asked w r)).
Proof.
  intros E Es.
  assert (T : fetch_wfs_try server (full_url url layer) w
              = (features <- lift (py_get b "features" (JArr [])) ;;
                 count <- lift (py_len features) ;;
                 ret b) (asked w r)).
  { unfold fetch_wfs_try, bind at 1, requests_get. cbv zeta.
    fold r. fold (asked w r). rewrite E.
    unfold bind at 1, raise_for_status. cbn [status_code]. rewrite Es.
    unfold ret at 1. unfold bind at 1, response_json. cbn [body].
    reflexivity. }
  split.
  - intros O. unfold fetch_wfs. rewrite range_attempts, fetch_wfs_loop_cons, T.
    destruct b; try discriminate; reflexivity.
  - intros d v -> F L. unfold fetch_wfs.
    rewrite range_attempts, fetch_wfs_loop_cons, T.
    unfold bind at 1, lift at 1. cbn [py_get]. rewrite F.
    unfold bind at 1, lift at 1. rewrite L. reflexivity.
Qed.
End Uncaught.

Lemma fetch_wfs_lets_shape_errors_out_witness :
  DownloadDeraActions.fetch_wfs (answers_once (JArr []))
    "http://test.com" "test:layer" empty_world
  = (Raise AttributeError,
     asked empty_world (wfs_request "http://test.com" "test:layer"))
  /\ DownloadDeraActions.fetch_wfs
       (answers_once (JObj [("features", JNull)]))
       "http://test.com" "test:layer" empty_world
     = (Raise TypeError,
        asked empty_world (wfs_request "http://test.com" "test:layer")).
Proof.
  split.
  - apply (fetch_wfs_lets_shape_errors_out (answers_once (JArr []))
             "http://test.com" "test:layer" 200 (JArr []) empty_world);
      reflexivity.
  - apply (proj2 (fetch_wfs_lets_shape_errors_out
                    (answers_once (JObj [("features", JNull)]))
                    "http://test.com" "test:layer" 200
                    (JObj [("features", JNull)]) empty_world
                    eq_refl eq_refl)
             [("features", JNull)] JNull); reflexivity.
Defined.

Section TaggingMore.
Import DownloadDeraActions.
Variable server : nat -> request -> outcome.

Lemma tag_feature_not_record desc f :
  is_record f = false -> tag_feature desc f = Raise TypeError.
Proof.
  intros R. destruct f as [| | | |?|d]; try reflexivity.
  cbn in *. unfold dict_mem.
  destruct (dict_get d "properties") as [p|] eqn:P; [|discriminate].
  cbn. rewrite P. destruct p; try reflexivity. discriminate.
Qed.

Lemma map_tag_not_records desc items :
  forallb is_record items = false ->
  map_result (tag_feature desc) items = Raise TypeError.
Proof.
  induction items as [|f items IH]; [discriminate|]. cbn [forallb map_result].
  destruct (is_record f) eqn:R.
  - cbn [andb]. intros H. rewrite (tag_feature_record desc f R), (IH H).
    reflexivity.
  - intros _. now rewrite tag_feature_not_record.
Qed.

(** X5. Tagging raises [TypeError] exactly on a value that is not an
    object with an absent or object-valued ["properties"] (a [null]
    attribute mapping included).  One such record in the document of a
    layer makes the merge loop raise at that layer: the records assembled
    from the layers before it are dropped and the layers after it are not
    fetched. *)
Theorem merge_stops_at_untaggable_record url layer desc rest acc s b w :
  server (calls w) (wfs_request url layer) = Response s (Some b) ->
  (400 <=? s) && (s <? 600) = false ->
  is_collection b = true ->
  forallb is_record (records_of b) = false ->
  (forall label f,
      tag_feature label f = Raise TypeError <-> is_record f = false)
  /\ merge_loop server ((url, layer, desc) :: rest) acc w
     = (Raise TypeError, asked w (wfs_request url layer))
  /\ merge_features server [(url, layer, desc)] w
     = (Raise TypeError, asked w (wfs_request url layer)).
Proof.
  intros E Es C N.
  assert (L : forall rest' acc',
             merge_loop server ((url, layer, desc) :: rest') acc' w
             = (Raise TypeError, asked w (wfs_request url layer))).
  { intros rest' acc'. cbn [merge_loop]. unfold bind at 1.
    rewrite (@fetch_wfs_first_attempt server url layer w s b E Es C).
    unfold bind at 1, lift at 1. rewrite (collection_features b C).
    unfold bind at 1, lift at 1. cbn [py_iter].
    unfold bind at 1, lift at 1. now rewrite map_tag_not_records. }
  split; [|split].
  - intros label f. split.
    + intros T. destruct (is_record f) eqn:R; [|reflexivity].
      rewrite (tag_feature_record label f R) in T. discriminate.
    + apply tag_feature_not_record.
  - apply L.
  - unfold merge_features, bind. now rewrite L.
Qed.

End TaggingMore.

Lemma merge_stops_at_untaggable_record_witness :
  DownloadDeraActions.merge_features (answers_once one_null_record)
    [("http://test.com", "test:layer", "Test Layer")] empty_world
  = (Raise TypeError,
     asked empty_world (wfs_request "http://test.com" "test:layer")).
Proof.
  apply (merge_stops_at_untaggable_record (answers_once one_null_record)
           "http://test.com" "test:layer" "Test Layer" [] [] 200
           one_null_record empty_world); reflexivity.
Defined.


Section MergeBounds.
Import DownloadDeraActions.
Variable server : nat -> request -> outcome.

Lemma fetch_wfs_loop_calls url layer attempts : forall w,
  let w' := snd (fetch_wfs_loop server attempts (full_url url layer) w) in
  (calls w <= calls w' <= calls w + List.length attempts)%nat
  /\ (attempts <> [] -> calls w < calls w')%nat
  /\ files w' = files w.
Proof.
  induction attempts as [|a rest IH]; intros w; cbv zeta.
  - cbn. repeat split; try lia. congruence.
  - rewrite fetch_wfs_loop_cons.
    pose proof (fetch_wfs_try_world server url layer w) as W.
    destruct (fetch_wfs_try server (full_url url layer) w) as [[d|e] w1];
      cbn [snd] in W; subst w1.
    { cbn. repeat split; try lia. }
    destruct (fetch_wfs_catches e); [|cbn; repeat split; lia].
    match goal with |- context [fetch_wfs_loop _ rest _ ?w1] =>
      destruct (IH w1) as (B & _ & F);
      assert (C1 : calls w1 = S (calls w))
        by (destruct (a <? MAX_RETRIES); reflexivity);
      assert (F1 : files w1 = files w)
        by (destruct (a <? MAX_RETRIES); reflexivity)
    end.
    cbv zeta in B, F. rewrite C1 in B. rewrite F1 in F.
    cbn [List.length]. repeat split; try lia. exact F.
Qed.

Lemma fetch_wfs_calls url layer w :
  (calls w + 1 <= calls (snd (fetch_wfs server url layer w))
   <= calls w + 3)%nat
  /\ files (snd (fetch_wfs server url layer w)) = files w.
Proof.
  unfold fetch_wfs. rewrite range_attempts.
  destruct (fetch_wfs_loop_calls url layer [1; 2; 3] w) as (B & P & F).
  cbv zeta in *. cbn [List.length] in B.
  specialize (P ltac:(discriminate)). split; [lia|exact F].
Qed.

Lemma layer_documents_calls layers : forall w,
  serves is_feature_collection server ->
  (calls w + List.length layers
   <= calls (snd (layer_documents server layers w))
   <= calls w + 3 * List.length layers)%nat
  /\ files (snd (layer_documents server layers w)) = files w.
Proof.
  induction layers as [|[[url layer] desc] rest IH]; intros w polite.
  - cbn. split; [lia|reflexivity].
  - cbn [layer_documents].
    destruct (fetch_wfs_calls url layer w) as (B & F).
    destruct (@fetch_wfs_feature_collection server polite url layer w)
      as (data & w1 & E & _).
    rewrite E in *. cbn [snd] in B, F.
    destruct (IH w1 polite) as (B' & F').
    destruct (layer_documents server rest w1) as [docs w'].
    cbn [snd List.length] in *. split; [lia|congruence].
Qed.

Lemma tagged_records_length docs :
  Z.of_nat (List.length (tagged_records docs))
  = py_sum (map (fun d => count_of (snd d)) docs).
Proof.
  induction docs as [|[desc data] docs IH]; [reflexivity|].
  unfold tagged_records in *. cbn [flat_map map fst snd].
  rewrite length_app, length_map, py_sum_cons, Nat2Z.inj_add, IH.
  reflexivity.
Qed.

(** X7. Against a server that sends feature collections, the merged
    collection holds as many records as the fetched documents hold
    together, and merging a category costs between one and three GETs per
    descriptor and touches no file. *)
Theorem merge_features_counts_and_requests layers w :
  serves is_feature_collection server ->
  exists fs w',
    merge_features server layers w = (Ok (merged fs), w')
    /\ Z.of_nat (List.length fs)
       = py_sum (map (fun d => count_of (snd d))
                     (fst (layer_documents server layers w)))
    /\ (calls w + List.length layers <= calls w'
        <= calls w + 3 * List.length layers)%nat
    /\ files w' = files w.
Proof.
  intros polite. eexists. eexists.
  split; [apply (@merge_features_documents server polite layers w)|].
  split; [apply tagged_records_length|].
  apply layer_documents_calls, polite.
Qed.
End MergeBounds.

Lemma merge_features_counts_and_requests_witness :
  exists w',
    DownloadDeraActions.merge_features (answers_fourth two_records)
      [("http://a", "a:one", "A"); ("http://b", "b:two", "B")] empty_world
    = (Ok (merged [tagged "B" bare_record; tagged "B" named_record]), w')
    /\ calls w' = 4%nat.
Proof.
  assert (P : serves is_feature_collection (answers_fourth two_records)).
  { intros n r s b H. do 4 (destruct n; [inversion H; try reflexivity|]).
    inversion H. }
  destruct (merge_features_counts_and_requests
              (answers_fourth two_records)
              [("http://a", "a:one", "A"); ("http://b", "b:two", "B")]
              empty_world P) as (fs & w' & E & _).
  exists w'. rewrite E. vm_compute in E. injection E as <- <-.
  split; reflexivity.
Defined.

Section Writer.
Import DownloadDeraActions.

Lemma dict_set_keys (V : Type) (d : dict V) k v v' :
  dict_keys (dict_set d k v) = dict_keys (dict_set d k v').
Proof.
  unfold dict_keys. induction d as [|[k0 v0] d IH]; cbn; [reflexivity|].
  destruct (String.eqb k0 k); cbn; [reflexivity|]. now f_equal.
Qed.

(** Whatever the document, [save_geojson] has written it when it returns
    or raises. *)
Lemma save_geojson_world data filename w :
  snd (save_geojson data filename w)
  = mkWorld (calls w)
            (trace w ++ [WriteFile (OUTPUT_DIR ++ "/" ++ filename) data])
            (dict_set (files w) (OUTPUT_DIR ++ "/" ++ filename) data).
Proof.
  unfold save_geojson, bind. rewrite write_json_writes.
  unfold lift. destruct (py_get data "features" (JArr [])) as [v|e];
    [|reflexivity].
  destruct (py_len v); reflexivity.
Qed.

(** X8. Writing a category twice leaves the second document in the file:
    the disk is what the second write alone would have left (no append, no
    second entry), and every other file is as it was. *)
Theorem save_geojson_overwrites a b filename w :
  let path := (OUTPUT_DIR ++ "/" ++ filename)%string in
  let w1 := snd (save_geojson a filename w) in
  let w2 := snd (save_geojson b filename w1) in
  dict_get (files w2) path = Some b
  /\ files w2 = files (snd (save_geojson b filename w))
  /\ dict_keys (files w2) = dict_keys (files w1)
  /\ (forall p, p <> path -> dict_get (files w2) p = dict_get (files w) p).
Proof.
  cbv zeta. rewrite !save_geojson_world. cbn [files].
  rewrite dict_set_set.
  split; [apply dict_get_set_same|]. split; [reflexivity|].
  split; [apply dict_set_keys|].
  intros p N. now apply dict_get_set_other.
Qed.

(** X9. [save_geojson] writes before it counts: given a value that is not
    an object it raises [AttributeError], and the file already holds that
    value. *)
Theorem save_geojson_writes_before_counting data filename w :
  is_object data = false ->
  let path := (OUTPUT_DIR ++ "/" ++ filename)%string in
  exists w',
    save_geojson data filename w = (Raise AttributeError, w')
    /\ dict_get (files w') path = Some data
    /\ writes (trace w') = (writes (trace w) ++ [(path, data)])%list.
Proof.
  intros O path. eexists. split; [|split].
  - unfold save_geojson, bind. rewrite write_json_writes. unfold lift.
    destruct data; try discriminate; reflexivity.
  - cbn [files]. apply dict_get_set_same.
  - cbn [trace]. rewrite writes_app. reflexivity.
Qed.
End Writer.

Lemma save_geojson_writes_before_counting_witness :
  exists w',
    DownloadDeraActions.save_geojson (JArr [named_record]) "x.geojson"
                                     empty_world
    = (Raise AttributeError, w')
    /\ dict_get (files w') "public/data/dera/x.geojson"
       = Some (JArr [named_record]).
Proof.
  destruct (save_geojson_writes_before_counting (JArr [named_record])
              "x.geojson" empty_world eq_refl) as (w' & E & F & _).
  exists w'. split; [exact E|exact F].
Defined.

Section AllFail.
Import DownloadDeraActions.
Variable server : nat -> request -> outcome.
Variable clock : world -> string.
Hypothesis down : always_fails server.




End AllFail.


(* ================================================================= *)
(** ** Further properties of download_dera.py *)

Section PaginationMore.
Import DownloadDera.
Variable server : nat -> request -> outcome.
Variable clock : world -> string.
Variables (url layer : string) (cql_filter : option string).

Local Abbreviation req i := (page_request url layer cql_filter i BATCH_SIZE).

Lemma fetch_loop_never_stops fuel : forall acc i w,
  always_full_pages server ->
  fetch_loop server fuel url layer cql_filter acc i w = None.
Proof.
  induction fuel as [|fuel IH]; intros acc i w A; [reflexivity|].
  rewrite fetch_loop_S.
  destruct (A (calls w) (req i)) as (s & b & E & Es & C & Full).
  rewrite (round_try_answered server url layer cql_filter acc i w s b E Es C).
  cbv zeta.
  replace (Z.of_nat (List.length (records_of b)) =? 0) with false
    by (symmetry; apply Z.eqb_neq; unfold BATCH_SIZE in Full; lia).
  replace (Z.of_nat (List.length (records_of b)) <? BATCH_SIZE) with false
    by (symmetry; apply Z.ltb_ge; exact Full).
  apply IH, A.
Qed.

(** X11. The pagination has no cap of its own: against a server that
    answers every request with a full page, no number of rounds finishes
    the fetch. *)
Theorem pagination_unbounded_on_full_pages description :
  always_full_pages server ->
  forall fuel w,
    fetch_wfs_features server clock fuel url layer description cql_filter w
    = None.
Proof.
  intros A fuel w. unfold fetch_wfs_features, bindF.
  now rewrite fetch_loop_never_stops.
Qed.

(** The loop past a run of full pages. *)
Lemma fetch_loop_past_pages pages : forall acc i w,
  full_pages server url layer cql_filter (calls w) i pages ->
  exists w',
    calls w' = (calls w + List.length pages)%nat
    /\ files w' = files w
    /\ forall fuel,
         fetch_loop server (List.length pages + fuel) url layer cql_filter
                    acc i w
         = fetch_loop server fuel url layer cql_filter
                      (acc ++ List.concat pages)%list
                      (i + BATCH_SIZE * Z.of_nat (List.length pages)) w'.
Proof.
  induction pages as [|p pages IH]; intros acc i w P.
  - exists w. split; [cbn; lia|]. split; [reflexivity|].
    intros fuel. cbn [List.length List.concat Nat.add].
    now rewrite app_nil_r, Z.mul_0_r, Z.add_0_r.
  - destruct P as ((s & b & E & Es & C & R) & Full & P).
    destruct (IH (acc ++ p)%list (i + BATCH_SIZE)
                 (sent (asked w (req i)) (Sleep (1 # 2))) P)
      as (w' & K & F & L).
    exists w'. split; [rewrite K; cbn [calls sent asked List.length]; lia|].
    split; [rewrite F; reflexivity|].
    intros fuel. cbn [List.length Nat.add]. rewrite fetch_loop_S.
    rewrite (round_try_answered server url layer cql_filter acc i w s b
               E Es C).
    cbv zeta. rewrite R.
    replace (Z.of_nat (List.length p) =? 0) with false
      by (symmetry; apply Z.eqb_neq; unfold BATCH_SIZE in Full; lia).
    replace (Z.of_nat (List.length p) <? BATCH_SIZE) with false
      by (symmetry; apply Z.ltb_ge; exact Full).
    rewrite L. cbn [List.concat]. rewrite app_assoc. f_equal. lia.
Qed.

(** X12. The paginated fetcher catches only [RequestException].  A
    success response whose JSON is not an object raises [AttributeError]
    out of [fetch_wfs_features], and the pages assembled before it are not
    returned. *)
Theorem pagination_lets_shape_errors_out description pages extra s b w :
  full_pages server url layer cql_filter (calls w) 0 pages ->
  server (calls w + List.length pages)%nat
         (req (BATCH_SIZE * Z.of_nat (List.length pages)))
  = Response s (Some b) ->
  (400 <=? s) && (s <? 600) = false ->
  is_object b = false ->
  exists w',
    fetch_wfs_features server clock (List.length pages + S extra)
                       url layer description cql_filter w
    = Some (Raise AttributeError, w')
    /\ calls w' = (calls w + List.length pages + 1)%nat.
Proof.
  intros P E Es O.
  destruct (fetch_loop_past_pages pages [] 0 w P) as (w1 & K & F & L).
  exists (asked w1 (req (BATCH_SIZE * Z.of_nat (List.length pages)))).
  split; [|cbn [calls asked]; lia].
  unfold fetch_wfs_features, bindF. rewrite L, fetch_loop_S.
  rewrite Z.add_0_l, round_try_unfold, K, E, Es.
  unfold bind at 1, lift at 1.
  destruct b; try discriminate; reflexivity.
Qed.
End PaginationMore.

Lemma pagination_unbounded_on_full_pages_witness :
  DownloadDera.fetch_wfs_features always_full fixed_clock 3
    "http://test.com" "test:layer" "Test Layer" None empty_world = None.
Proof.
  apply (pagination_unbounded_on_full_pages always_full fixed_clock
           "http://test.com" "test:layer" None "Test Layer").
  intros n r. eexists. eexists. split; [reflexivity|].
  split; [reflexivity|]. split; [reflexivity|].
  vm_compute. discriminate.
Defined.

Lemma pagination_lets_shape_errors_out_witness :
  exists w',
    DownloadDera.fetch_wfs_features page_then_array fixed_clock 2
      "http://test.com" "test:layer" "Test Layer" None empty_world
    = Some (Raise AttributeError, w')
    /\ calls w' = 2%nat.
Proof.
  apply (pagination_lets_shape_errors_out page_then_array fixed_clock
           "http://test.com" "test:layer" None "Test Layer"
           [full_page] 0%nat 200 (JArr []) empty_world).
  - split; [|split; [vm_compute; discriminate|exact I]].
    eexists. eexists. split; [reflexivity|].
    split; [reflexivity|]. split; reflexivity.
  - reflexivity.
  - reflexivity.
  - reflexivity.
Defined.

Section LayerDownload.
Import DownloadDera.
Variable server : nat -> request -> outcome.
Variable clock : world -> string.
Variable config : dict category_config.

(** X13. For a key that is not configured, [download_layer] returns
    [False] without a single request or file.  [main] never gets that far:
    such a [--layer] is outside the choices of the command line, and the
    process ends with status 2, with or without [--list], before any request
    or file. *)
Theorem download_layer_unknown_key fuel key out flag w :
  dict_get config key = None ->
  download_layer_in server clock config fuel key out w = Some (Ok false, w)
  /\ (key <> "all" ->
      main_in server clock config fuel (mkArgs key out flag) w
      = Some (Ok 2, w)).
Proof.
  intros N. split; [unfold download_layer_in; now rewrite N|].
  intros A. unfold main_in.
  destruct (existsb (String.eqb (arg_layer (mkArgs key out flag)))
                    (layer_choices config)) eqn:X; [|reflexivity].
  exfalso. apply layer_choice_accepted in X. cbn [arg_layer] in X.
  destruct X as [X|X]; [contradiction|].
  unfold dict_mem in X. now rewrite N in X.
Qed.

Hypothesis down : always_fails server.

Lemma fetch_wfs_features_all_fail fuel url layer description cql w :
  let w1 := asked w (page_request url layer cql 0 BATCH_SIZE) in
  fetch_wfs_features server clock (S fuel) url layer description cql w
  = Some (Ok (fetched [] layer (clock w1)), w1).
Proof.
  cbv zeta. unfold fetch_wfs_features, bindF.
  now rewrite (fetch_loop_abandons server url layer cql fuel [] 0 w
                 (down _ _)).
Qed.

Lemma download_sources_all_fail fuel sources : forall acc w,
  exists w',
    download_sources server clock (S fuel) sources acc w = Some (Ok acc, w')
    /\ calls w' = (calls w + List.length sources)%nat
    /\ no_writes w w'.
Proof.
  induction sources as [|s sources IH]; intros acc w.
  - exists w. split; [reflexivity|]. split; [cbn; lia|apply no_writes_refl].
  - destruct (IH acc (asked w (page_request (src_url s) (src_layer s)
                                 (src_cql_filter s) 0 BATCH_SIZE)))
      as (w' & L & K & N).
    exists w'. split; [|split].
    + cbn [download_sources]. unfold bindF at 1.
      rewrite fetch_wfs_features_all_fail.
      unfold bindF at 1, liftF, bind, lift, fetched. cbn [py_get dict_get].
      cbn. rewrite app_nil_r. exact L.
    + rewrite K. cbn [calls asked List.length]. lia.
    + eapply no_writes_trans; [apply no_writes_asked|exact N].
Qed.

(** X14. When every request fails, [download_layer] makes exactly one GET
    per source of the category (there is no retry), writes the category
    file with no features and a [featuresCount] of 0, and still returns
    [True]. *)
Theorem download_layer_all_requests_fail fuel key c out w :
  dict_get config key = Some c ->
  exists doc meta w',
    download_layer_in server clock config (S fuel) key out w
    = Some (Ok true, w')
    /\ calls w' = (calls w + List.length (cfg_urls c))%nat
    /\ writes (trace w')
       = (writes (trace w) ++ [(layer_file out key, doc)])%list
    /\ member doc "features" = Some (JArr [])
    /\ member doc "metadata" = Some meta
    /\ member meta "featuresCount" = Some (JNum (inject_Z 0))
    /\ member meta "sources"
       = Some (JArr (map (fun s => JStr (src_layer s)) (cfg_urls c))).
Proof.
  intros Hc.
  destruct (download_sources_all_fail fuel (cfg_urls c) [] w)
    as (w1 & L & K & [Nf Nw]).
  eexists. eexists. eexists. split.
  - unfold download_layer_in. rewrite Hc. unfold bindF. rewrite L.
    unfold liftF, bind. rewrite write_json_writes. reflexivity.
  - cbn [calls trace]. split; [exact K|].
    split; [rewrite writes_app, Nw; reflexivity|].
    repeat split; reflexivity.
Qed.

Lemma download_keys_results fuel out keys : forall results w res w',
  NoDup keys ->
  (forall k, In k keys -> dict_mem config k = true) ->
  (forall k, In k keys -> ~ In k (dict_keys results)) ->
  download_keys server clock config fuel keys out results w
  = Some (Ok res, w') ->
  res = (results ++ map (fun k => (k, true)) keys)%list.
Proof.
  induction keys as [|k keys IH]; intros results w res w' ND Known Fresh E.
  - cbn in E. unfold retF in E. injection E as <- _.
    now rewrite app_nil_r.
  - cbn [download_keys] in E. unfold bindF at 1 in E.
    destruct (download_layer_in server clock config fuel k out w)
      as [[[ok|e] w1]|] eqn:D; try discriminate.
    apply download_layer_in_known in D.
    rewrite (Known k (or_introl eq_refl)) in D. subst ok.
    inversion ND as [|? ? Hk ND']; subst.
    rewrite dict_set_fresh in E by (apply Fresh; now left).
    apply IH in E; [|exact ND'| |].
    + rewrite E, <- app_assoc. reflexivity.
    + intros k' Hk'. apply Known. now right.
    + intros k' Hk'. unfold dict_keys. rewrite map_app, in_app_iff. cbn.
      intros [H|[H|[]]].
      * revert H. apply Fresh. now right.
      * subst. contradiction.
Qed.
End LayerDownload.

Section DownloadAll.
Import DownloadDera.
Variable server : nat -> request -> outcome.
Variable clock : world -> string.
Variable config : dict category_config.

(** X15. Whenever [download_all] returns, its result has one entry per
    configured key, in the order of the configuration, and every entry is
    [True]: the result does not tell an empty category from a full one. *)
Theorem download_all_reports_every_key fuel out w res w' :
  NoDup (dict_keys config) ->
  download_all_in server clock config fuel out w = Some (Ok res, w') ->
  res = map (fun k => (k, true)) (dict_keys config).
Proof.
  intros ND E. unfold download_all_in in E.
  apply (download_keys_results server clock config fuel out
           (dict_keys config) [] w res w' ND) in E.
  - exact E.
  - intros k. apply keys_are_members.
  - intros k _ [].
Qed.
End DownloadAll.

Lemma download_layer_unknown_key_witness :
  DownloadDera.download_layer always_times_out fixed_clock 1 "heritage"
                              "out" empty_world
  = Some (Ok false, empty_world)
  /\ DownloadDera.main always_times_out fixed_clock 1
       (DownloadDera.mkArgs "heritage" "out" false) empty_world
     = Some (Ok 2, empty_world).
Proof.
  destruct (download_layer_unknown_key always_times_out fixed_clock
              DownloadDera.WFS_CONFIG 1 "heritage" "out" false empty_world
              eq_refl) as (D & M).
  split; [exact D|]. apply M. discriminate.
Defined.

Lemma download_layer_all_requests_fail_witness :
  exists w',
    DownloadDera.download_layer always_503 fixed_clock 1 "municipal" "out"
                                empty_world
    = Some (Ok true, w')
    /\ calls w' = 1%nat.
Proof.
  destruct (download_layer_all_requests_fail always_503 fixed_clock
              DownloadDera.WFS_CONFIG (fun n r => eq_refl) 0 "municipal"
              (DownloadDera.mkConfig "Servicios Municipales"
                 [DownloadDera.mkSource DownloadDera.g12
                    "DERA_g12_servicios:g12_11_Ayuntamiento"
                    "Ayuntamientos" None])
              "out" empty_world eq_refl)
    as (doc & meta & w' & E & K & _).
  exists w'. split; [exact E|]. rewrite K. reflexivity.
Defined.

Lemma download_all_reports_every_key_witness :
  exists w',
    DownloadDera.download_all always_times_out fixed_clock 1 "out"
                              empty_world
    = Some (Ok [("health", true); ("security", true); ("energy", true);
                ("education", true); ("municipal", true)], w').
Proof.
  assert (ND : NoDup (dict_keys DownloadDera.WFS_CONFIG)).
  { repeat (constructor; [cbn; intuition discriminate|]). constructor. }
  unfold DownloadDera.download_all.
  destruct (DownloadDera.download_all_in always_times_out fixed_clock
              DownloadDera.WFS_CONFIG 1 "out" empty_world)
    as [[[res|e] w']|] eqn:E;
    [|vm_compute in E; discriminate|vm_compute in E; discriminate].
  exists w'.
  rewrite (download_all_reports_every_key always_times_out fixed_clock
             DownloadDera.WFS_CONFIG 1 "out" empty_world res w' ND E).
  reflexivity.
Defined.

(* ================================================================= *)
(** ** The summary and the exit status, on the written documents *)

Section SummaryInvariant.
Import DownloadDeraActions.
Variable server : nat -> request -> outcome.
Variable clock : world -> string.

Lemma py_sum_sum_counts xs : py_sum xs = sum_counts xs.
Proof.
  induction xs as [|x xs IH]; [reflexivity|].
  rewrite py_sum_cons, IH. reflexivity.
Qed.

(** The document [update_metadata] writes, member by member. *)
Lemma update_metadata_summary stats w :
  exists summary,
    update_metadata clock stats w
    = (Ok tt, mkWorld (calls w)
                      (trace w ++ [WriteFile METADATA_FILE summary])
                      (dict_set (files w) METADATA_FILE summary))
    /\ member summary "layers"
       = Some (JObj (map (fun kv => (fst kv, JNum (inject_Z (snd kv))))
                         stats))
    /\ member summary "totalFeatures"
       = Some (JNum (inject_Z (sum_counts (map snd stats)))).
Proof.
  destruct (update_metadata_writes clock stats w) as (summary & U & L & T).
  exists summary. split; [exact U|]. split; [exact L|].
  rewrite T. unfold dict_values. now rewrite py_sum_sum_counts.
Qed.

End SummaryInvariant.

(* ================================================================= *)
(** ** Provenance, script by script *)

Section Provenance.
Variable server : nat -> request -> outcome.
Variable clock : world -> string.

Lemma fetch_wfs_features_document fuel url layer description cql w doc w1 :
  DownloadDera.fetch_wfs_features server clock fuel url layer description
                                  cql w = Some (Ok doc, w1) ->
  exists all, doc = fetched all layer (clock w1).
Proof.
  unfold DownloadDera.fetch_wfs_features, DownloadDera.bindF.
  destruct (DownloadDera.fetch_loop server fuel url layer cql [] 0 w)
    as [[[all|e] w']|]; try discriminate.
  intros [= <- <-]. exists all. reflexivity.
Qed.

(** The loop of [download_layer] appends the records of each source as
    [fetch_wfs_features] assembled them. *)
Lemma download_sources_records fuel sources : forall acc w fs w',
  source_records server clock fuel sources w = Some (fs, w') ->
  DownloadDera.download_sources server clock fuel sources acc w
  = Some (Ok (acc ++ fs)%list, w').
Proof.
  induction sources as [|s sources IH]; intros acc w fs w' E.
  - cbn in E. injection E as <- <-. cbn. now rewrite app_nil_r.
  - cbn [source_records] in E. cbn [DownloadDera.download_sources].
    unfold DownloadDera.bindF at 1.
    destruct (DownloadDera.fetch_wfs_features server clock fuel
                (DownloadDera.src_url s) (DownloadDera.src_layer s)
                (DownloadDera.src_description s)
                (DownloadDera.src_cql_filter s) w)
      as [[[doc|e] w1]|] eqn:F; try discriminate.
    destruct (source_records server clock fuel sources w1)
      as [[fs1 w2]|] eqn:R; [|discriminate].
    injection E as <- <-.
    destruct (fetch_wfs_features_document _ _ _ _ _ _ _ _ F) as (all & ->).
    unfold DownloadDera.bindF at 1, DownloadDera.liftF, bind, lift, fetched.
    cbn [py_get dict_get String.eqb Ascii.eqb Bool.eqb py_iter records_of].
    cbn. rewrite (IH (acc ++ all)%list w1 fs1 w2 R).
    now rewrite <- app_assoc.
Qed.

(** C3, as the code has it.  In download_dera_actions.py, when the
    documents fetched for a category are feature collections of records
    whose ["properties"] is absent or a mapping, [merge_features] sets
    ["_source"] in the attribute mapping of every returned record to the
    label of its layer's descriptor, creates the mapping first when the
    record has no ["properties"], and leaves every other attribute and
    every other member of the record as it was.  In download_dera.py,
    whatever the server sends, when the fetches of a category return,
    [download_layer] writes exactly the records [fetch_wfs_features]
    assembled, in order and as they came: it adds no provenance
    attribute. *)
Theorem provenance_is_tagged_by_merge_features_only layers w :
  (serves is_feature_collection server ->
   let docs := fst (layer_documents server layers w) in
   fst (DownloadDeraActions.merge_features server layers w)
   = Ok (merged (tagged_records docs))
   /\ map fst docs = map (fun d => snd d) layers
   /\ forall desc data f,
        In (desc, data) docs -> In f (records_of data) ->
        In (tagged desc f) (tagged_records docs)
        /\ DownloadDeraActions.tag_feature desc f = Ok (tagged desc f)
        /\ member (tagged desc f) "properties"
           = Some (JObj (dict_set (attributes f) "_source" (JStr desc)))
        /\ dict_get (attributes (tagged desc f)) "_source"
           = Some (JStr desc)
        /\ (forall k, k <> "_source" ->
              dict_get (attributes (tagged desc f)) k
              = dict_get (attributes f) k)
        /\ (forall k, k <> "properties" ->
              member (tagged desc f) k = member f k))
  /\ (forall config fuel key c out w0 fs w1,
        dict_get config key = Some c ->
        source_records server clock fuel (DownloadDera.cfg_urls c) w0
        = Some (fs, w1) ->
        exists doc w',
          DownloadDera.download_layer_in server clock config fuel key out w0
          = Some (Ok true, w')
          /\ writes (trace w')
             = (writes (trace w1) ++ [(layer_file out key, doc)])%list
          /\ member doc "features" = Some (JArr fs)).
Proof.
  split.
  - intros polite.
    exact (@merge_features_tags_every_record server layers w polite).
  - intros config fuel key c out w0 fs w1 Hc R.
    eexists. eexists. split; [|split].
    + unfold DownloadDera.download_layer_in. rewrite Hc.
      unfold DownloadDera.bindF.
      rewrite (download_sources_records fuel _ [] w0 fs w1 R).
      cbn [app]. unfold DownloadDera.liftF, bind.
      rewrite write_json_writes. reflexivity.
    + cbn [trace]. rewrite writes_app. reflexivity.
    + reflexivity.
Qed.
End Provenance.

(** C3 as stated fails: [download_layer] writes the two records it
    fetched with no ["_source"] on either, and [merge_features] raises on a
    record whose attribute mapping is [null] instead of creating one. *)
Lemma records_untagged_or_untaggable :
  (exists doc w',
      DownloadDera.download_layer (answers_once two_records) fixed_clock 1
                                  "municipal" "out" empty_world
      = Some (Ok true, w')
      /\ dict_get (files w') "out/municipal.geojson" = Some doc
      /\ member doc "features" = Some (JArr [bare_record; named_record])
      /\ member bare_record "properties" = None
      /\ dict_get (attributes named_record) "_source" = None)
  /\ (exists w',
        DownloadDeraActions.merge_features (answers_once one_null_record)
          [("http://test.com", "test:layer", "Test Layer")] empty_world
        = (Raise TypeError, w')
        /\ In null_properties (records_of one_null_record)
        /\ member null_properties "properties" = Some JNull).
Proof.
  split.
  - eexists. eexists. split; [vm_compute; reflexivity|].
    split; [vm_compute; reflexivity|]. repeat split; reflexivity.
  - eexists. split; [vm_compute; reflexivity|].
    split; [right; left; reflexivity|reflexivity].
Qed.

Lemma provenance_is_tagged_by_merge_features_only_witness :
  fst (DownloadDeraActions.merge_features (answers_once two_records)
         [("http://test.com", "test:layer", "Mi Descripción")] empty_world)
  = Ok (merged [tagged "Mi Descripción" bare_record;
                tagged "Mi Descripción" named_record])
  /\ member (tagged "Mi Descripción" bare_record) "properties"
     = Some (JObj [("_source", JStr "Mi Descripción")])
  /\ member (tagged "Mi Descripción" named_record) "properties"
     = Some (JObj [("nombre", JStr "Test");
                   ("_source", JStr "Mi Descripción")])
  /\ exists doc w',
       DownloadDera.download_layer (answers_once two_records) fixed_clock 1
                                   "municipal" "out" empty_world
       = Some (Ok true, w')
       /\ member doc "features" = Some (JArr [bare_record; named_record])
       /\ writes (trace w') = [("out/municipal.geojson", doc)].
Proof.
  assert (P : serves is_feature_collection (answers_once two_records)).
  { intros n r s b H. destruct n; inversion H. reflexivity. }
  destruct (provenance_is_tagged_by_merge_features_only
              (answers_once two_records) fixed_clock
              [("http://test.com", "test:layer", "Mi Descripción")]
              empty_world) as (A0 & B).
  destruct (A0 P) as (A & _ & C).
  split; [exact A|].
  split.
  { destruct (C "Mi Descripción" two_records bare_record) as (_ & _ & H & _);
      [left; reflexivity|left; reflexivity|exact H]. }
  split.
  { destruct (C "Mi Descripción" two_records named_record)
      as (_ & _ & H & _);
      [left; reflexivity|right; left; reflexivity|exact H]. }
  destruct (source_records (answers_once two_records) fixed_clock 1
              [DownloadDera.mkSource DownloadDera.g12
                 "DERA_g12_servicios:g12_11_Ayuntamiento"
                 "Ayuntamientos" None] empty_world)
    as [[fs w1]|] eqn:R; [|vm_compute in R; discriminate].
  destruct (B DownloadDera.WFS_CONFIG 1%nat "municipal"
              (DownloadDera.mkConfig "Servicios Municipales"
                 [DownloadDera.mkSource DownloadDera.g12
                    "DERA_g12_servicios:g12_11_Ayuntamiento"
                    "Ayuntamientos" None])
              "out" empty_world fs w1 eq_refl R) as (doc & w' & D & W & F).
  exists doc, w'. split; [exact D|].
  vm_compute in R. injection R as <- <-.
  split; [exact F|exact W].
Defined.

(* ================================================================= *)
(** ** What reaches the caller, and the exit status *)


Section ExitStatus.
Import DownloadDeraActions.
Variable server : nat -> request -> outcome.
Variable clock : world -> string.

Lemma fetch_wfs_loop_no_writes url layer attempts : forall w,
  no_writes w (snd (fetch_wfs_loop server attempts (full_url url layer) w)).
Proof.
  induction attempts as [|a rest IH]; intros w.
  - apply no_writes_refl.
  - rewrite fetch_wfs_loop_cons.
    pose proof (fetch_wfs_try_world server url layer w) as W.
    destruct (fetch_wfs_try server (full_url url layer) w) as [[d|e] w1];
      cbn [snd] in W; subst w1; [apply no_writes_asked|].
    destruct (fetch_wfs_catches e); [|apply no_writes_asked].
    eapply no_writes_trans; [apply no_writes_asked|].
    eapply no_writes_trans; [|apply IH].
    destruct (a <? MAX_RETRIES);
      [apply no_writes_sent_sleep|apply no_writes_refl].
Qed.

Lemma merge_loop_no_writes layers : forall acc w,
  no_writes w (snd (merge_loop server layers acc w)).
Proof.
  induction layers as [|[[url layer] desc] rest IH]; intros acc w.
  - apply no_writes_refl.
  - cbn [merge_loop]. unfold bind at 1.
    pose proof (fetch_wfs_loop_no_writes url layer
                  (range 1 (MAX_RETRIES + 1)) w) as N.
    fold (fetch_wfs server url layer w) in N.
    destruct (fetch_wfs server url layer w) as [[data|e] w1];
      cbn [snd] in N; [|exact N].
    unfold bind at 1, lift at 1.
    destruct (py_get data "features" (JArr [])) as [features|e];
      [|exact N].
    unfold bind at 1, lift at 1.
    destruct (py_iter features) as [items|e]; [|exact N].
    unfold bind at 1, lift at 1.
    destruct (map_result (tag_feature desc) items) as [tagged_items|e];
      [|exact N].
    eapply no_writes_trans; [exact N|apply IH].
Qed.

(** When [merge_features] returns, it returns a collection, and it has
    written nothing. *)
Lemma merge_features_result layers w :
  (exists fs,
      fst (merge_features server layers w) = Ok (merged fs))
  \/ (exists e, fst (merge_features server layers w) = Raise e).
Proof.
  unfold merge_features, bind.
  destruct (merge_loop server layers [] w) as [[fs|e] w1]; cbn [fst ret].
  - left. exists fs. reflexivity.
  - right. exists e. reflexivity.
Qed.

Lemma merge_features_no_writes layers w :
  no_writes w (snd (merge_features server layers w)).
Proof.
  pose proof (merge_loop_no_writes layers [] w) as N.
  unfold merge_features, bind.
  destruct (merge_loop server layers [] w) as [[fs|e] w1]; exact N.
Qed.

(** The category loop, whatever the server does: when it returns, one
    document was written per category, in order, and the counts are the
    numbers of records of these documents. *)
Lemma process_categories_result config : forall stats0 w stats w',
  NoDup (dict_keys config) ->
  (forall k, In k (dict_keys config) -> ~ In k (dict_keys stats0)) ->
  process_categories server config stats0 w = (Ok stats, w') ->
  exists docs,
    stats = (stats0 ++ counts docs)%list
    /\ map fst docs = dict_keys config
    /\ writes (trace w')
       = (writes (trace w)
          ++ map (fun d => (category_file (fst d), snd d)) docs)%list
    /\ Forall (fun d => is_collection (snd d) = true) docs.
Proof.
  induction config as [|[category layers] config IH];
    intros stats0 w stats w' ND Fresh E.
  - cbn in E. injection E as <- <-. exists []. cbn.
    rewrite !app_nil_r. split; [reflexivity|]. split; [reflexivity|].
    split; [reflexivity|constructor].
  - cbn [process_categories] in E. unfold bind at 1 in E.
    pose proof (merge_features_no_writes layers w) as [_ Nw].
    destruct (merge_features_result layers w) as [(fs & M)|(e & M)];
      destruct (merge_features server layers w) as [[out|e'] w1];
      cbn [fst snd] in *; try discriminate.
    injection M as ->.
    unfold bind at 1 in E.
    rewrite save_geojson_collection in E by reflexivity.
    cbn in ND. inversion ND as [|? ? Hnotin ND']; subst.
    rewrite dict_set_fresh in E by (apply Fresh; now left).
    apply IH in E; [|exact ND'|].
    + destruct E as (docs & -> & K & W & C).
      exists ((category, merged fs) :: docs).
      split; [now rewrite <- app_assoc|].
      split; [cbn; now rewrite K|].
      split; [|constructor; [reflexivity|exact C]].
      rewrite W. cbn [trace]. rewrite writes_app, Nw. cbn.
      now rewrite <- app_assoc.
    + intros k Hk. unfold dict_keys. rewrite map_app, in_app_iff. cbn.
      intros [H|[H|[]]].
      * revert H. apply Fresh. now right.
      * subst. contradiction.
Qed.

Lemma total_positive_iff docs :
  (0 <? total_of (counts docs)) = true
  <-> exists d, In d docs /\ 0 < count_of (snd d).
Proof.
  rewrite total_of_sum, counts_values, Z.ltb_lt.
  assert (NN : Forall (fun x => 0 <= x)
                      (map (fun d => count_of (snd d)) docs)).
  { apply Forall_forall. intros x Hx. apply in_map_iff in Hx as (d & <- & _).
    apply count_of_nonneg. }
  pose proof (py_sum_nonneg NN) as S0.
  pose proof (py_sum_zero NN) as SZ.
  split.
  - intros P.
    destruct (Forall_Exists_dec (fun d => count_of (snd d) = 0)
                (fun d => Z.eq_dec (count_of (snd d)) 0) docs) as [A|X].
    + exfalso. rewrite Forall_forall in A.
      assert (Z0 : py_sum (map (fun d => count_of (snd d)) docs) = 0).
      { apply SZ, Forall_forall. intros x Hx.
        apply in_map_iff in Hx as (d & <- & Hd). now apply A. }
      lia.
    + apply Exists_exists in X as (d & Hd & N). exists d.
      split; [exact Hd|]. pose proof (count_of_nonneg (snd d)). lia.
  - intros (d & Hd & P).
    destruct (Z.eq_dec (py_sum (map (fun d => count_of (snd d)) docs)) 0)
      as [Z0|]; [|lia].
    apply SZ in Z0. rewrite Forall_forall in Z0.
    specialize (Z0 _ (in_map (fun d => count_of (snd d)) docs d Hd)).
    cbn beta in Z0. lia.
Qed.
End ExitStatus.

Section DeraAllFail.
Import DownloadDera.
Variable server : nat -> request -> outcome.
Variable clock : world -> string.
Variable config : dict category_config.
Hypothesis down : always_fails server.

Lemma download_layer_in_all_fail fuel key out w :
  dict_mem config key = true ->
  exists w',
    download_layer_in server clock config (S fuel) key out w
    = Some (Ok true, w').
Proof.
  unfold dict_mem, download_layer_in.
  destruct (dict_get config key) as [c|]; [intros _|discriminate].
  destruct (download_sources_all_fail server clock down fuel (cfg_urls c)
              [] w) as (w1 & L & _).
  unfold bindF. rewrite L. unfold liftF, bind. rewrite write_json_writes.
  eexists. reflexivity.
Qed.

Lemma download_keys_all_fail fuel out keys : forall results w,
  (forall k, In k keys -> dict_mem config k = true) ->
  exists res w',
    download_keys server clock config (S fuel) keys out results w
    = Some (Ok res, w').
Proof.
  induction keys as [|k keys IH]; intros results w Known.
  - exists results, w. reflexivity.
  - destruct (download_layer_in_all_fail fuel k out w
                (Known k (or_introl eq_refl))) as (w1 & D).
    destruct (IH (dict_set results k true) w1) as (res & w' & E).
    { intros k' Hk'. apply Known. now right. }
    exists res, w'. cbn [download_keys]. unfold bindF at 1.
    rewrite D. exact E.
Qed.

(** With every request failing, [main] still returns, and returns 0, for
    every command line it accepts. *)
Lemma main_in_all_fail fuel a w :
  existsb (String.eqb (arg_layer a)) (layer_choices config) = true ->
  exists w', main_in server clock config (S fuel) a w = Some (Ok 0, w').
Proof.
  intros Acc.
  assert (R : exists code w',
             main_in server clock config (S fuel) a w = Some (Ok code, w')).
  { unfold main_in. rewrite Acc. cbn [negb].
    destruct (arg_list a); [eexists; eexists; reflexivity|].
    unfold bindF at 1.
    destruct (String.eqb_spec (arg_layer a) "all") as [A|A].
    - unfold download_all_in.
      destruct (download_keys_all_fail fuel (arg_output a)
                  (dict_keys config) [] w) as (res & w' & ->).
      { intros k. apply keys_are_members. }
      eexists. eexists. reflexivity.
    - apply layer_choice_accepted in Acc as [Acc|Acc]; [contradiction|].
      destruct (download_layer_in_all_fail fuel (arg_layer a)
                  (arg_output a) w Acc) as (w' & D).
      unfold bindF at 1. rewrite D.
      eexists. eexists. reflexivity. }
  destruct R as (code & w' & E). exists w'.
  rewrite E. f_equal. f_equal. f_equal.
  eapply main_in_exit_zero; [exact E|].
  now apply layer_choice_accepted.
Qed.
End DeraAllFail.

Section ExitStatusClaim.
Import DownloadDeraActions.
Variable server : nat -> request -> outcome.
Variable clock : world -> string.

(** C8, as the code has it.  download_dera_actions.py ends with status 0
    exactly when the run completes and at least one category written has a
    record; with 1 when the run completes and every category written is
    empty, and also when an exception escapes, which is the status of an
    uncaught exception; the run completes whenever the bodies that parse are
    feature collections of records.  download_dera.py, whenever its [main]
    returns, ends with 0 for every command line it accepts, whatever was
    downloaded; it always ends with 2 for a [--layer] outside the choices
    and with 0 for an accepted command line with [--list], in both cases
    before any request or file; and with every request failing it does
    return, with 0. *)
Theorem exit_status_by_script config w :
  NoDup (dict_keys config) ->
  ((exists docs summary code w',
       main_on server clock config w = (Ok code, w')
       /\ map fst docs = dict_keys config
       /\ writes (trace w')
          = (writes (trace w)
             ++ map (fun d => (category_file (fst d), snd d)) docs
             ++ [(METADATA_FILE, summary)])%list
       /\ (code = 0 <->
           exists d, In d docs
                     /\ 0 < Z.of_nat (List.length (records_of (snd d))))
       /\ (code = 1 <-> forall d, In d docs -> records_of (snd d) = []))
   \/ (exists e w',
         main_on server clock config w = (Raise e, w')
         /\ exit_status (fst (main_on server clock config w)) = 1))
  /\ (serves is_feature_collection server ->
      exists code w', main_on server clock config w = (Ok code, w'))
  /\ (forall dera_config fuel a w0,
        let accepted :=
          existsb (String.eqb (DownloadDera.arg_layer a))
                  (DownloadDera.layer_choices dera_config) in
        (accepted = false ->
         DownloadDera.main_in server clock dera_config fuel a w0
         = Some (Ok 2, w0))
        /\ (accepted = true -> DownloadDera.arg_list a = true ->
            DownloadDera.main_in server clock dera_config fuel a w0
            = Some (Ok 0, w0))
        /\ (accepted = true -> forall code w',
              DownloadDera.main_in server clock dera_config fuel a w0
              = Some (Ok code, w') ->
              code = 0))
  /\ (always_fails server ->
      forall dera_config fuel a w0,
        existsb (String.eqb (DownloadDera.arg_layer a))
                (DownloadDera.layer_choices dera_config) = true ->
        exists w',
          DownloadDera.main_in server clock dera_config (S fuel) a w0
          = Some (Ok 0, w')).
Proof.
  intros ND. split; [|split; [|split]].
  - destruct (process_categories server config [] w) as [[stats|e] w1] eqn:P.
    + left.
      destruct (process_categories_result server config [] w stats w1 ND)
        as (docs & -> & K & W & _); [intros k _ []|exact P|].
      cbn [app] in P.
      destruct (update_metadata_writes clock (counts docs) w1)
        as (summary & U & _).
      exists docs, summary.
      exists (if 0 <? total_of (counts docs) then 0 else 1). eexists.
      split; [|split; [exact K|split]].
      * unfold main_on. unfold bind at 1. rewrite P.
        unfold bind at 1. rewrite U.
        destruct (0 <? total_of (counts docs)); reflexivity.
      * cbn [trace]. rewrite writes_app, W. cbn. now rewrite <- app_assoc.
      * pose proof (total_positive_iff docs) as T. unfold count_of in T.
        destruct (0 <? total_of (counts docs)) eqn:Pos.
        -- split.
           ++ split; [intros _; now apply T|reflexivity].
           ++ split; [discriminate|]. intros Z0. exfalso.
              destruct (proj1 T eq_refl) as (d & Hd & Pd).
              rewrite (Z0 d Hd) in Pd. cbn in Pd. lia.
        -- split.
           ++ split; [discriminate|]. intros X.
              apply T in X. discriminate.
           ++ split; [intros _|reflexivity].
              intros d Hd.
              destruct (records_of (snd d)) as [|f fs] eqn:R;
                [reflexivity|].
              exfalso. assert (X : false = true); [|discriminate].
              apply T. exists d.
              split; [exact Hd|]. rewrite R. cbn [List.length]. lia.
    + right. exists e, w1.
      assert (M : main_on server clock config w = (Raise e, w1))
        by (unfold main_on; unfold bind at 1; now rewrite P).
      split; [exact M|]. now rewrite M.
  - intros polite.
    destruct (@main_on_runs server clock polite config w ND)
      as (docs & w1 & _ & _ & _ & _ & E).
    eexists. eexists. exact E.
  - intros dera_config fuel a w0. cbv zeta. split; [|split].
    + intros Acc. unfold DownloadDera.main_in. rewrite Acc. reflexivity.
    + intros Acc L. unfold DownloadDera.main_in. rewrite Acc, L.
      reflexivity.
    + intros Acc code w' E.
      eapply main_in_exit_zero; [exact E|].
      now apply layer_choice_accepted.
  - intros down dera_config fuel a w0 Acc.
    now apply main_in_all_fail.
Qed.
End ExitStatusClaim.

Lemma exit_status_by_script_witness :
  (exists w',
      DownloadDeraActions.main (answers_once two_records) fixed_clock
                               empty_world = (Ok 0, w'))
  /\ (exists w',
        DownloadDera.main always_503 fixed_clock 1 all_layers empty_world
        = Some (Ok 0, w'))
  /\ DownloadDera.main always_503 fixed_clock 1
        (DownloadDera.mkArgs "heritage" "out" false) empty_world
     = Some (Ok 2, empty_world).
Proof.
  assert (ND : NoDup (dict_keys DownloadDeraActions.WFS_LAYERS)).
  { repeat (constructor; [cbn; intuition discriminate|]). constructor. }
  split; [|split].
  - assert (P : serves is_feature_collection (answers_once two_records)).
    { intros n r s b H. destruct n; inversion H. reflexivity. }
    destruct (exit_status_by_script (answers_once two_records) fixed_clock
                DownloadDeraActions.WFS_LAYERS empty_world ND)
      as (_ & Total & _).
    destruct (Total P) as (code & w' & E).
    exists w'. unfold DownloadDeraActions.main. rewrite E.
    vm_compute in E. injection E as <- _. reflexivity.
  - destruct (exit_status_by_script always_503 fixed_clock
                DownloadDeraActions.WFS_LAYERS empty_world ND)
      as (_ & _ & _ & Down).
    apply (Down (fun n r => eq_refl) DownloadDera.WFS_CONFIG 0%nat
                all_layers empty_world).
    reflexivity.
  - destruct (exit_status_by_script always_503 fixed_clock
                DownloadDeraActions.WFS_LAYERS empty_world ND)
      as (_ & _ & Dera & _).
    destruct (Dera DownloadDera.WFS_CONFIG 1%nat
                (DownloadDera.mkArgs "heritage" "out" false) empty_world)
      as (Refused & _).
    apply Refused. reflexivity.
Defined.

(* ================================================================= *)
(** ** The summary of a run, whatever the server does *)

Section SummaryClaim.
Import DownloadDeraActions.
Variable server : nat -> request -> outcome.
Variable clock : world -> string.

(** No category file is the summary file. *)
Lemma category_file_not_metadata category :
  category_file category <> METADATA_FILE.
Proof. unfold category_file, METADATA_FILE, OUTPUT_DIR. discriminate. Qed.

(** When the category loop raises, only category documents were written
    by then. *)
Lemma process_categories_raise config : forall stats0 w e w',
  process_categories server config stats0 w = (Raise e, w') ->
  exists docs,
    writes (trace w')
    = (writes (trace w)
       ++ map (fun d => (category_file (fst d), snd d)) docs)%list.
Proof.
  induction config as [|[category layers] config IH];
    intros stats0 w e w' E.
  - discriminate.
  - cbn [process_categories] in E. unfold bind at 1 in E.
    pose proof (merge_features_no_writes server layers w) as [_ Nw].
    destruct (merge_features_result server layers w) as [(fs & M)|(e0 & M)];
      destruct (merge_features server layers w) as [[out|e'] w1];
      cbn [fst snd] in *; try discriminate.
    + injection M as ->. unfold bind at 1 in E.
      rewrite save_geojson_collection in E by reflexivity.
      apply IH in E as (docs & W).
      exists ((category, merged fs) :: docs).
      rewrite W. cbn [trace]. rewrite writes_app, Nw. cbn.
      now rewrite <- app_assoc.
    + injection E as _ <-. exists []. cbn. now rewrite app_nil_r.
Qed.

(** C4. [update_metadata] writes any count mapping it is given as it is,
    one entry per key, with the sum of its values as ["totalFeatures"].
    In a run, whatever the server sends: when the run completes, the
    summary holds, under ["layers"], one entry per processed category, in
    order and whatever its count, whose value is the count [save_geojson]
    returned for the category's document, which is the number of records of
    the document written for it in that run, and its ["totalFeatures"] is
    the sum of these counts; when an exception ends the run, only category
    documents were written and no summary.  The run completes whenever the
    bodies that parse are feature collections of records. *)
Theorem summary_total_is_sum_of_written_counts config w :
  NoDup (dict_keys config) ->
  (forall stats w0, exists summary0,
      writes (trace (snd (update_metadata clock stats w0)))
      = (writes (trace w0) ++ [(METADATA_FILE, summary0)])%list
      /\ member summary0 "layers"
         = Some (JObj (map (fun kv => (fst kv, JNum (inject_Z (snd kv))))
                           stats))
      /\ member summary0 "totalFeatures"
         = Some (JNum (inject_Z (sum_counts (map snd stats)))))
  /\ ((exists docs summary code w',
         main_on server clock config w = (Ok code, w')
         /\ map fst docs = dict_keys config
         /\ writes (trace w')
            = (writes (trace w)
               ++ map (fun d => (category_file (fst d), snd d)) docs
               ++ [(METADATA_FILE, summary)])%list
         /\ Forall (fun d => forall w0,
                      fst (save_geojson (snd d) (fst d ++ ".geojson") w0)
                      = Ok (Z.of_nat (List.length (records_of (snd d)))))
                   docs
         /\ member summary "layers"
            = Some (JObj (map (fun d => (fst d, count_json (snd d))) docs))
         /\ member summary "totalFeatures"
            = Some (JNum (inject_Z
                      (sum_counts
                         (map (fun d =>
                                 Z.of_nat (List.length (records_of (snd d))))
                              docs)))))
      \/ (exists e docs w',
            main_on server clock config w = (Raise e, w')
            /\ writes (trace w')
               = (writes (trace w)
                  ++ map (fun d => (category_file (fst d), snd d)) docs)%list
            /\ forall d, In d docs ->
                 category_file (fst d) <> METADATA_FILE))
  /\ (serves is_feature_collection server ->
      exists code w', main_on server clock config w = (Ok code, w')).
Proof.
  intros ND. split; [|split].
  - intros stats w0.
    destruct (update_metadata_summary clock stats w0)
      as (summary0 & -> & L & T).
    exists summary0. cbn [snd trace]. rewrite writes_app.
    split; [reflexivity|]. split; assumption.
  - destruct (process_categories server config [] w) as [[stats|e] w1] eqn:P.
    + left.
      destruct (process_categories_result server config [] w stats w1 ND)
        as (docs & -> & K & W & C); [intros k _ []|exact P|].
      cbn [app] in P.
      destruct (update_metadata_summary clock (counts docs) w1)
        as (summary & U & L & T).
      exists docs, summary.
      exists (if 0 <? total_of (counts docs) then 0 else 1). eexists.
      split; [|split; [exact K|split; [|split; [|split]]]].
      * unfold main_on. unfold bind at 1. rewrite P.
        unfold bind at 1. rewrite U.
        destruct (0 <? total_of (counts docs)); reflexivity.
      * cbn [trace]. rewrite writes_app, W. cbn. now rewrite <- app_assoc.
      * eapply Forall_impl; [|exact C]. intros d Cd w0. cbn beta in Cd.
        now rewrite save_geojson_collection.
      * rewrite L. unfold counts. rewrite map_map. reflexivity.
      * rewrite T. unfold counts. rewrite map_map. reflexivity.
    + right.
      destruct (process_categories_raise config [] w e w1 P) as (docs & W).
      exists e, docs, w1. split; [|split; [exact W|]].
      * unfold main_on. unfold bind at 1. now rewrite P.
      * intros d _. apply category_file_not_metadata.
  - intros polite.
    destruct (@main_on_runs server clock polite config w ND)
      as (docs & w1 & _ & _ & _ & _ & E).
    eexists. eexists. exact E.
Qed.
End SummaryClaim.

Lemma summary_total_is_sum_of_written_counts_witness :
  (exists summary0,
      writes (trace (snd (DownloadDeraActions.update_metadata fixed_clock
                            example_counts empty_world)))
      = [(DownloadDeraActions.METADATA_FILE, summary0)]
      /\ member summary0 "layers"
         = Some (JObj [("health", JNum (inject_Z 5));
                       ("security", JNum (inject_Z 0));
                       ("education", JNum (inject_Z 12))])
      /\ member summary0 "totalFeatures" = Some (JNum (inject_Z 17)))
  /\ exists summary code w',
      DownloadDeraActions.main (answers_once two_records) fixed_clock
                               empty_world = (Ok code, w')
      /\ dict_get (files w') DownloadDeraActions.METADATA_FILE = Some summary
      /\ member summary "layers"
         = Some (JObj [("health", JNum (inject_Z 2));
                       ("security", JNum (inject_Z 0));
                       ("education", JNum (inject_Z 0));
                       ("municipal", JNum (inject_Z 0));
                       ("emergency", JNum (inject_Z 0));
                       ("energy", JNum (inject_Z 0))])
      /\ member summary "totalFeatures" = Some (JNum (inject_Z 2)).
Proof.
  assert (P : serves is_feature_collection (answers_once two_records)).
  { intros n r s b H. destruct n; inversion H. reflexivity. }
  assert (ND : NoDup (dict_keys DownloadDeraActions.WFS_LAYERS)).
  { repeat (constructor; [cbn; intuition discriminate|]). constructor. }
  destruct (summary_total_is_sum_of_written_counts
              (answers_once two_records) fixed_clock
              DownloadDeraActions.WFS_LAYERS empty_world ND)
    as (U & _ & Total).
  split.
  - destruct (U example_counts empty_world) as (summary0 & W & L & T).
    exists summary0. split; [exact W|]. split; [exact L|exact T].
  - destruct (Total P) as (code & w' & E).
    unfold DownloadDeraActions.main. rewrite E.
    vm_compute in E. injection E as <- <-.
    eexists. eexists. eexists. split; [reflexivity|].
    split; [reflexivity|]. split; reflexivity.
Defined.
